(** * Access control of the Personal Notes router

    A shallow embedding of [packages/api/src/router/note.ts] and of the
    schemas of [packages/db/src/schema.ts], and the properties of the
    authorization policy that the specification states about them.

    The tables are lists of rows in insertion order, a procedure is a
    function from the database to an outcome paired with the database it
    leaves behind, so that a call that throws still shows what it wrote. *)

From Stdlib Require Import String Ascii List ZArith Bool Lia Permutation Sorted.
Import ListNotations.
Local Open Scope string_scope.
Local Open Scope list_scope.

Set Implicit Arguments.

(** ** Values received from the client *)

(** The JSON value a client sends as the input of a procedure; a key that
    is not there reads as [JUndefined]. *)
#[warnings="-register-all"]
Inductive jsval : Type :=
| JUndefined
| JNull
| JBool (b : bool)
| JNum (n : Z)
| JStr (s : string)
| JObj (props : list (string * jsval)).

(** Property read [o[k]]: a later definition of a key overrides an
    earlier one, as in an object literal. *)
Definition prop (k : string) (o : list (string * jsval)) : jsval :=
  fold_left (fun acc kv => if String.eqb (fst kv) k then snd kv else acc)
            o JUndefined.

(** ** zod schemas: a schema is a parser of client values *)

Definition schema (A : Type) := jsval -> option A.

Definition z_string : schema string :=
  fun v => match v with JStr s => Some s | _ => None end.

Definition z_boolean : schema bool :=
  fun v => match v with JBool b => Some b | _ => None end.

(** A string is held as the bytes of its UTF-8 encoding. JavaScript's
    [s.length] counts UTF-16 code units: one for a code point of the
    basic plane, two for one beyond it, whose encoding starts with a byte
    from 240 to 247; the bytes from 128 to 191 that continue an encoding
    count nothing, and one that continues nothing stands for a
    replacement character. *)
Definition utf8_units (b : nat) : nat :=
  if Nat.leb 240 b && Nat.ltb b 248 then 2 else 1.

Definition utf8_tail (b : nat) : nat :=
  if Nat.ltb b 192 then 0
  else if Nat.ltb b 224 then 1
  else if Nat.ltb b 240 then 2
  else if Nat.ltb b 248 then 3
  else 0.

Fixpoint utf16_units (tail : nat) (s : string) : nat :=
  match s with
  | EmptyString => 0
  | String c rest =>
      let b := nat_of_ascii c in
      match tail with
      | S k =>
          if Nat.leb 128 b && Nat.ltb b 192 then utf16_units k rest
          else utf8_units b + utf16_units (utf8_tail b) rest
      | O => utf8_units b + utf16_units (utf8_tail b) rest
      end
  end.

Definition js_length (s : string) : nat := utf16_units 0 s.

(** [.min(n)] and [.max(n)] on a string schema compare [s.length]. *)
Definition z_min (n : nat) (p : schema string) : schema string :=
  fun v => match p v with
           | Some s => if Nat.leb n (js_length s) then Some s else None
           | None => None
           end.

Definition z_max (n : nat) (p : schema string) : schema string :=
  fun v => match p v with
           | Some s => if Nat.leb (js_length s) n then Some s else None
           | None => None
           end.

Definition z_optional {A} (p : schema A) : schema (option A) :=
  fun v => match v with
           | JUndefined => Some None
           | _ => option_map Some (p v)
           end.

(** ** Rows of the two tables *)

Definition timestamp := Z.

(** What PostgreSQL reads as a [uuid]: sixteen bytes of two hexadecimal
    digits each, in either case, with an optional hyphen after the bytes
    of odd index but the last, the whole optionally in braces. The result
    is the text the server prints for the value: lower case, hyphens
    after the fourth, sixth, eighth and tenth byte. *)
Definition hex_lower (c : ascii) : option ascii :=
  let n := nat_of_ascii c in
  if Nat.leb 48 n && Nat.leb n 57 then Some c
  else if Nat.leb 97 n && Nat.leb n 102 then Some c
  else if Nat.leb 65 n && Nat.leb n 70 then Some (ascii_of_nat (n + 32))
  else None.

Definition skip_hyphen (i : nat) (s : string) : string :=
  match s with
  | String c rest =>
      if Ascii.eqb c "-" && Nat.odd i && Nat.ltb i 15 then rest else s
  | EmptyString => s
  end.

Definition group_end (i : nat) : bool :=
  Nat.eqb i 3 || Nat.eqb i 5 || Nat.eqb i 7 || Nat.eqb i 9.

Fixpoint uuid_bytes (i todo : nat) (s : string) : option (string * string) :=
  match todo with
  | O => Some (EmptyString, s)
  | S todo' =>
      match s with
      | String c1 (String c2 rest) =>
          match hex_lower c1, hex_lower c2 with
          | Some d1, Some d2 =>
              match uuid_bytes (S i) todo' (skip_hyphen i rest) with
              | Some (printed, tail) =>
                  Some (String d1 (String d2
                          (if group_end i then String "-" printed else printed)),
                        tail)
              | None => None
              end
          | _, _ => None
          end
      | _ => None
      end
  end.

Definition uuid_in (s : string) : option string :=
  match s with
  | String "{" body =>
      match uuid_bytes 0 16 body with
      | Some (printed, String "}" EmptyString) => Some printed
      | _ => None
      end
  | _ =>
      match uuid_bytes 0 16 s with
      | Some (printed, EmptyString) => Some printed
      | _ => None
      end
  end.

(** A [text] or [varchar] value cannot hold the character U+0000. *)
Fixpoint hasNul (s : string) : bool :=
  match s with
  | EmptyString => false
  | String c rest => Nat.eqb (nat_of_ascii c) 0 || hasNul rest
  end.

(** The [user] table of the auth schema, reduced to the columns the
    router reads. *)
Module User.
Record t : Type := mk
  { id : string;
    name : string;
    email : string;
    role : string;
    image : option string }.
End User.

(** [pgTable("note", ...)]; the [id], a uuid, is held as the text the
    server prints for it. *)
Module Note.
Record t : Type := mk
  { id : string;
    title : string;
    content : string;
    userId : string;
    isPublic : bool;
    createdAt : timestamp;
    updatedAt : option timestamp;
    id_is_uuid : uuid_in id = Some id }.
Arguments mk : clear implicits.
End Note.

(** Output type of [CreateNoteSchema]: the insert schema of [Note] with
    [id], [userId], [createdAt] and [updatedAt] omitted. *)
Module NewNote.
Record t : Type := mk
  { title : string;
    content : string;
    isPublic : option bool }.
End NewNote.

(** Output type of [UpdateNoteSchema]: every remaining key is optional. *)
Module NoteData.
Record t : Type := mk
  { title : option string;
    content : option string;
    isPublic : option bool }.
End NoteData.

Definition CreateNoteSchema : schema NewNote.t :=
  fun v =>
    match v with
    | JObj o =>
        match z_max 256 (z_min 1 z_string) (prop "title" o),
              z_min 1 z_string (prop "content" o),
              z_optional z_boolean (prop "isPublic" o) with
        | Some t, Some c, Some p => Some (NewNote.mk t c p)
        | _, _, _ => None
        end
    | _ => None
    end.

Definition UpdateNoteSchema : schema NoteData.t :=
  fun v =>
    match v with
    | JObj o =>
        match z_optional (z_max 256 (z_min 1 z_string)) (prop "title" o),
              z_optional (z_min 1 z_string) (prop "content" o),
              z_optional z_boolean (prop "isPublic" o) with
        | Some t, Some c, Some p => Some (NoteData.mk t c p)
        | _, _, _ => None
        end
    | _ => None
    end.

(** [z.object({ id: z.string() })], the input of [byId]. *)
Definition ByIdSchema : schema string :=
  fun v => match v with
           | JObj o => z_string (prop "id" o)
           | _ => None
           end.

(** [z.object({ id: z.string(), data: UpdateNoteSchema })]. *)
Definition UpdateInputSchema : schema (string * NoteData.t) :=
  fun v =>
    match v with
    | JObj o =>
        match z_string (prop "id" o), UpdateNoteSchema (prop "data" o) with
        | Some i, Some d => Some (i, d)
        | _, _ => None
        end
    | _ => None
    end.

(** [pgTable("post", ...)] of the template, and the output type of
    [CreatePostSchema]: its insert schema with [id], [createdAt] and
    [updatedAt] omitted. *)
Module Post.
Record t : Type := mk
  { id : string;
    title : string;
    content : string;
    createdAt : timestamp;
    updatedAt : option timestamp }.
End Post.

Module NewPost.
Record t : Type := mk
  { title : string;
    content : string }.
End NewPost.

Definition CreatePostSchema : schema NewPost.t :=
  fun v =>
    match v with
    | JObj o =>
        match z_max 256 z_string (prop "title" o),
              z_max 256 z_string (prop "content" o) with
        | Some t, Some c => Some (NewPost.mk t c)
        | _, _ => None
        end
    | _ => None
    end.

(** ** The database and the procedure monad *)

Module Db.
Record t : Type := mk
  { user : list User.t;
    Note : list Note.t }.
End Db.

Inductive TRPCErrorCode : Type :=
| UNAUTHORIZED
| FORBIDDEN
| NOT_FOUND
| BAD_REQUEST
| INTERNAL_SERVER_ERROR.

Inductive Outcome (A : Type) : Type :=
| Ok (a : A)
| Throw (code : TRPCErrorCode).
Arguments Throw {A} code.

Definition Proc (A : Type) : Type := Db.t -> Outcome A * Db.t.

Definition ret {A} (a : A) : Proc A := fun db => (Ok a, db).

Definition throw {A} (code : TRPCErrorCode) : Proc A :=
  fun db => (Throw code, db).

Definition bind {A B} (c : Proc A) (k : A -> Proc B) : Proc B :=
  fun db => match c db with
            | (Ok a, db') => k a db'
            | (Throw code, db') => (Throw code, db')
            end.

Definition query {A} (q : Db.t -> A) : Proc A := fun db => (Ok (q db), db).

Declare Scope proc_scope.
Delimit Scope proc_scope with proc.
Notation "x <- c ;; k" := (bind c (fun x => k))
  (at level 61, c at next level, right associativity) : proc_scope.
Notation "c ;; k" := (bind c (fun _ => k))
  (at level 61, right associativity) : proc_scope.
Local Open Scope proc_scope.

(** What the database server supplies to one statement: [now()] and the
    value of [gen_random_uuid()] behind [defaultRandom()]. *)
Record PgEnv : Type := mkEnv
  { now : timestamp;
    gen_random_uuid : string;
    gen_random_uuid_is_uuid : uuid_in gen_random_uuid = Some gen_random_uuid }.
Arguments mkEnv : clear implicits.

(** ** drizzle queries *)

Section Queries.
Variable A : Type.

Definition findFirst (where_ : A -> bool) (rows : list A) : option A :=
  find where_ rows.

(** [orderBy: desc(key)]: rows with the larger key first, rows with the
    same key in table order. *)
Fixpoint insert_desc (key : A -> Z) (x : A) (l : list A) : list A :=
  match l with
  | [] => [x]
  | y :: l' => if Z.leb (key y) (key x) then x :: l
               else y :: insert_desc key x l'
  end.

Definition desc (key : A -> Z) (rows : list A) : list A :=
  fold_right (insert_desc key) [] rows.

Definition findMany (where_ : A -> bool) (orderBy : list A -> list A)
           (rows : list A) : list A :=
  orderBy (filter where_ rows).
End Queries.

(** [with: { user: { columns } }]: which columns of the owner are read. *)
Record UserColumns : Type := mkCols
  { col_id : bool; col_name : bool; col_email : bool;
    col_role : bool; col_image : bool }.

(** The owner as attached to a note: a column that was not selected is
    absent from the object. *)
Module Owner.
Record t : Type := mk
  { id : option string;
    name : option string;
    email : option string;
    role : option string;
    image : option (option string) }.
End Owner.

Definition pick {A} (selected : bool) (a : A) : option A :=
  if selected then Some a else None.

Definition selectColumns (c : UserColumns) (u : User.t) : Owner.t :=
  Owner.mk (pick (col_id c) (User.id u))
           (pick (col_name c) (User.name u))
           (pick (col_email c) (User.email u))
           (pick (col_role c) (User.role u))
           (pick (col_image c) (User.image u)).

Record NoteWithUser : Type := mkNoteWithUser
  { note : Note.t;
    owner : option Owner.t }.

(** The relation [noteRelations.user]: [Note.userId] references
    [user.id]. *)
Definition withUser (c : UserColumns) (users : list User.t) (n : Note.t)
  : NoteWithUser :=
  mkNoteWithUser n
    (option_map (selectColumns c)
       (findFirst (fun u => String.eqb (User.id u) (Note.userId n)) users)).

(** [eq(Note.id, text)]: the server reads the parameter as a uuid before
    it compares it with the column; a text it cannot read fails the
    statement, which reaches the caller as an internal error. *)
Definition asUuid (text : string) : Proc string :=
  match uuid_in text with
  | Some uuid => ret uuid
  | None => throw INTERNAL_SERVER_ERROR
  end.

(** [insert(Note).values(v).returning()]: the defaults of the table fill
    the columns the values leave out ([updatedAt] has no default, so its
    [$onUpdateFn] also runs on insert); the server refuses a text with
    U+0000 and checks the primary key and the reference to [user.id],
    and its refusal reaches the caller as an internal error. *)
Definition insertNote (env : PgEnv) (input : NewNote.t) (userId : string)
  : Proc (list Note.t) :=
  fun db =>
    let row :=
      Note.mk (gen_random_uuid env)
              (NewNote.title input)
              (NewNote.content input)
              userId
              (match NewNote.isPublic input with Some b => b | None => false end)
              (now env)
              (Some (now env))
              (gen_random_uuid_is_uuid env) in
    if hasNul (NewNote.title input) || hasNul (NewNote.content input)
    then (Throw INTERNAL_SERVER_ERROR, db)
    else if existsb (fun n => String.eqb (Note.id n) (Note.id row)) (Db.Note db)
    then (Throw INTERNAL_SERVER_ERROR, db)
    else if existsb (fun u => String.eqb (User.id u) userId) (Db.user db)
    then (Ok [row], Db.mk (Db.user db) (Db.Note db ++ [row]))
    else (Throw INTERNAL_SERVER_ERROR, db).

(** [.set(data)]: a key that is [undefined] is left alone, and
    [updatedAt] takes its [$onUpdateFn] value. *)
Definition set_ (data : NoteData.t) (env : PgEnv) (n : Note.t) : Note.t :=
  Note.mk (Note.id n)
          (match NoteData.title data with Some t => t | None => Note.title n end)
          (match NoteData.content data with Some c => c | None => Note.content n end)
          (Note.userId n)
          (match NoteData.isPublic data with Some b => b | None => Note.isPublic n end)
          (Note.createdAt n)
          (Some (now env))
          (Note.id_is_uuid n).

(** No key of the data is defined. *)
Definition noValues (data : NoteData.t) : bool :=
  match NoteData.title data, NoteData.content data, NoteData.isPublic data with
  | None, None, None => true
  | _, _, _ => false
  end.

Definition dataHasNul (data : NoteData.t) : bool :=
  match NoteData.title data with Some t => hasNul t | None => false end
  || match NoteData.content data with Some c => hasNul c | None => false end.

(** [update(Note).set(data).where(w).returning()]: drizzle refuses a
    [set] in which no key is defined, before any statement is sent, and
    the server refuses a text with U+0000; either refusal reaches the
    caller as an internal error. *)
Definition updateNote (env : PgEnv) (data : NoteData.t) (where_ : Note.t -> bool)
  : Proc (list Note.t) :=
  fun db =>
    if noValues data || dataHasNul data
    then (Throw INTERNAL_SERVER_ERROR, db)
    else
      (Ok (map (set_ data env) (filter where_ (Db.Note db))),
       Db.mk (Db.user db)
             (map (fun n => if where_ n then set_ data env n else n)
                  (Db.Note db))).

(** [delete(Note).where(w)] *)
Definition deleteNote (where_ : Note.t -> bool) : Proc unit :=
  fun db =>
    (Ok tt, Db.mk (Db.user db) (filter (fun n => negb (where_ n)) (Db.Note db))).

(** ** Request context and middleware *)

(** The session of the identity provider: a snapshot of the user taken
    when the session was read, whose [role] may be out of date. *)
Module Session.
Record t : Type := mk { user : User.t }.
End Session.

Record Context : Type := mkCtx { session : option Session.t }.

Definition authenticated (s : Session.t) : Context := mkCtx (Some s).

(** Modelled from the spec: [protectedProcedure] of [../trpc] is not among
    the sources; an unauthenticated call to any operation fails with
    [Unauthenticated] and never reaches the policy, an authenticated one
    carries the actor's identity. *)
Definition protectedProcedure {A} (ctx : Context) (next : Session.t -> Proc A)
  : Proc A :=
  match session ctx with
  | None => throw UNAUTHORIZED
  | Some s => next s
  end.

(** [.input(schema)]: the parser runs after the middleware declared
    before it and before the resolver. *)
Definition input {I A} (p : schema I) (raw : jsval) (resolver : I -> Proc A)
  : Proc A :=
  match p raw with
  | None => throw BAD_REQUEST
  | Some i => resolver i
  end.

Definition includes (l : list string) (x : string) : bool :=
  existsb (String.eqb x) l.

(** The middleware that checks the role; [next] receives the context
    extended with [userRole]. *)
Definition requireRole {A} (allowedRoles : list string) (ctx : Context)
           (next : Session.t -> string -> Proc A) : Proc A :=
  protectedProcedure ctx (fun s =>
    userRecord <- query (fun db =>
        findFirst (fun u => String.eqb (User.id u) (User.id (Session.user s)))
                  (Db.user db)) ;;
    match userRecord with
    | None => throw FORBIDDEN
    | Some u =>
        if includes allowedRoles (User.role u)
        then next s (User.role u)
        else throw FORBIDDEN
    end).

(** ** The router *)

Definition publicColumns : UserColumns := mkCols true true false true true.
Definition adminColumns : UserColumns := mkCols true true true true true.

Definition ownOrPublic (uid : string) (n : Note.t) : bool :=
  String.eqb (Note.userId n) uid || Bool.eqb (Note.isPublic n) true.

Module noteRouter.

Definition all (ctx : Context) : Proc (list NoteWithUser) :=
  protectedProcedure ctx (fun s =>
    query (fun db =>
      map (withUser publicColumns (Db.user db))
          (findMany (ownOrPublic (User.id (Session.user s)))
                    (desc Note.createdAt) (Db.Note db)))).

Definition myNotes (ctx : Context) : Proc (list Note.t) :=
  protectedProcedure ctx (fun s =>
    query (fun db =>
      findMany (fun n => String.eqb (Note.userId n) (User.id (Session.user s)))
               (desc Note.createdAt) (Db.Note db))).

Definition byId (ctx : Context) (raw : jsval) : Proc NoteWithUser :=
  protectedProcedure ctx (fun s =>
    input ByIdSchema raw (fun id =>
      uuid <- asUuid id ;;
      found <- query (fun db =>
          findFirst (fun n => String.eqb (Note.id n) uuid
                              && ownOrPublic (User.id (Session.user s)) n)
                    (Db.Note db)) ;;
      match found with
      | None => throw NOT_FOUND
      | Some n => query (fun db => withUser publicColumns (Db.user db) n)
      end)).

Definition create (ctx : Context) (raw : jsval) (env : PgEnv)
  : Proc (list Note.t) :=
  protectedProcedure ctx (fun s =>
    input CreateNoteSchema raw (fun i =>
      insertNote env i (User.id (Session.user s)))).

Definition update (ctx : Context) (raw : jsval) (env : PgEnv)
  : Proc (list Note.t) :=
  protectedProcedure ctx (fun s =>
    input UpdateInputSchema raw (fun i =>
      uuid <- asUuid (fst i) ;;
      found <- query (fun db =>
          findFirst (fun n => String.eqb (Note.id n) uuid) (Db.Note db)) ;;
      match found with
      | None => throw NOT_FOUND
      | Some n =>
          if negb (String.eqb (Note.userId n) (User.id (Session.user s)))
          then throw FORBIDDEN
          else updateNote env (snd i)
                          (fun n => String.eqb (Note.id n) uuid)
      end)).

Definition delete (ctx : Context) (raw : jsval) : Proc unit :=
  protectedProcedure ctx (fun s =>
    input z_string raw (fun id =>
      uuid <- asUuid id ;;
      found <- query (fun db =>
          findFirst (fun n => String.eqb (Note.id n) uuid) (Db.Note db)) ;;
      match found with
      | None => throw NOT_FOUND
      | Some n =>
          if negb (String.eqb (Note.userId n) (User.id (Session.user s)))
          then throw FORBIDDEN
          else deleteNote (fun n => String.eqb (Note.id n) uuid)
      end)).

Definition adminAll (ctx : Context) : Proc (list NoteWithUser) :=
  requireRole ["admin"] ctx (fun _ _ =>
    query (fun db =>
      map (withUser adminColumns (Db.user db))
          (findMany (fun _ => true) (desc Note.createdAt) (Db.Note db)))).

Definition adminDelete (ctx : Context) (raw : jsval) : Proc unit :=
  requireRole ["admin"] ctx (fun _ _ =>
    input z_string raw (fun id =>
      uuid <- asUuid id ;;
      found <- query (fun db =>
          findFirst (fun n => String.eqb (Note.id n) uuid) (Db.Note db)) ;;
      match found with
      | None => throw NOT_FOUND
      | Some _ => deleteNote (fun n => String.eqb (Note.id n) uuid)
      end)).

End noteRouter.

(** ** Vocabulary of the properties *)

(** The constraints the schema puts on the tables: both primary keys, and
    the reference from [Note.userId] to [user.id]. *)
Definition noteIdsUnique (db : Db.t) : Prop := NoDup (map Note.id (Db.Note db)).

Definition userIdsUnique (db : Db.t) : Prop := NoDup (map User.id (Db.user db)).

Definition ownersExist (db : Db.t) : Prop :=
  forall n, In n (Db.Note db) ->
            exists u, In u (Db.user db) /\ User.id u = Note.userId n.

Definition consistent (db : Db.t) : Prop :=
  noteIdsUnique db /\ userIdsUnique db /\ ownersExist db.

(** The User Directory holds role [r] for the user [uid]. *)
Definition hasRole (db : Db.t) (uid r : string) : Prop :=
  exists u, In u (Db.user db) /\ User.id u = uid /\ User.role u = r.

Definition succeeds {A} (r : Outcome A * Db.t) : Prop :=
  exists a, fst r = Ok a.

Definition actor (s : Session.t) : string := User.id (Session.user s).

(** The read rule of the policy: the owner, or anyone if the note is
    public. *)
Definition mayRead (uid : string) (n : Note.t) : Prop :=
  Note.userId n = uid \/ Note.isPublic n = true.

(** Newest first. *)
Definition newestFirst (l : list Note.t) : Prop :=
  StronglySorted (fun a b => (Note.createdAt b <= Note.createdAt a)%Z) l.

(** The client values of a well-typed call. *)
Definition jsOfString (o : option string) : jsval :=
  match o with Some s => JStr s | None => JUndefined end.

Definition jsOfBool (o : option bool) : jsval :=
  match o with Some b => JBool b | None => JUndefined end.

Definition createInput (title content : string) (isPublic : option bool)
  : jsval :=
  JObj [("title", JStr title); ("content", JStr content);
        ("isPublic", jsOfBool isPublic)].

Definition updateInput (id : string) (d : NoteData.t) : jsval :=
  JObj [("id", JStr id);
        ("data", JObj [("title", jsOfString (NoteData.title d));
                       ("content", jsOfString (NoteData.content d));
                       ("isPublic", jsOfBool (NoteData.isPublic d))])].

Definition byIdInput (id : string) : jsval := JObj [("id", JStr id)].

(** What [UpdateNoteSchema] asks of the fields that are supplied. *)
Definition validData (d : NoteData.t) : Prop :=
  match NoteData.title d with
  | Some t => 1 <= js_length t <= 256
  | None => True
  end /\
  match NoteData.content d with
  | Some c => 1 <= js_length c
  | None => True
  end.

(** A listed note with the email taken off the owner attached to it. *)
Definition withoutEmail (a : NoteWithUser) : NoteWithUser :=
  mkNoteWithUser (note a)
    (option_map (fun o => Owner.mk (Owner.id o) (Owner.name o) None
                                   (Owner.role o) (Owner.image o))
                (owner a)).

(** An object with every definition of the key [k] removed. *)
Definition without (k : string) (o : list (string * jsval))
  : list (string * jsval) :=
  filter (fun kv => negb (String.eqb (fst kv) k)) o.

(** The promotion statement of the setup notes, run out of band:
    [UPDATE "user" SET role = r WHERE email = e]. *)
Definition sqlSetRole (e r : string) (db : Db.t) : Db.t :=
  Db.mk (map (fun u => if String.eqb (User.email u) e
                       then User.mk (User.id u) (User.name u) (User.email u)
                                    r (User.image u)
                       else u)
             (Db.user db))
        (Db.Note db).

(** [eq(Note.userId, uid)], the filter of [myNotes]. *)
Definition ownedBy (uid : string) (n : Note.t) : bool :=
  String.eqb (Note.userId n) uid.

(** The value [isPublic] has after an update with [data]. *)
Definition isPublicAfter (data : NoteData.t) (n : Note.t) : bool :=
  match NoteData.isPublic data with Some b => b | None => Note.isPublic n end.

(** [DELETE FROM "user" WHERE id = uid], run out of band: the reference
    from [Note.userId] is declared with [onDelete: "cascade"], so the
    notes of the user go with the row. *)
Definition sqlDeleteUser (uid : string) (db : Db.t) : Db.t :=
  Db.mk (filter (fun u => negb (String.eqb (User.id u) uid)) (Db.user db))
        (filter (fun n => negb (String.eqb (Note.userId n) uid)) (Db.Note db)).

(** A field of an update: the supplied value, or else the old one. *)
Definition supplied {A} (field : option A) (old new : A) : Prop :=
  match field with Some v => new = v | None => new = old end.

(** What a successful update may do to one row. *)
Definition updatedRow (id : string) (data : NoteData.t) (env : PgEnv)
           (old new : Note.t) : Prop :=
  (Note.id old <> id /\ new = old) \/
  (Note.id old = id /\
   Note.id new = Note.id old /\
   Note.userId new = Note.userId old /\
   Note.createdAt new = Note.createdAt old /\
   supplied (NoteData.title data) (Note.title old) (Note.title new) /\
   supplied (NoteData.content data) (Note.content old) (Note.content new) /\
   supplied (NoteData.isPublic data) (Note.isPublic old) (Note.isPublic new) /\
   Note.updatedAt new = Some (now env)).

(** ** A small database for the examples *)

Definition alice : User.t :=
  User.mk "u-alice" "Alice" "alice@example.com" "user" None.
Definition bob : User.t :=
  User.mk "u-bob" "Bob" "bob@example.com" "user" (Some "bob.png").
Definition carol : User.t :=
  User.mk "u-carol" "Carol" "carol@example.com" "admin" None.

(** The ids of the examples, as the server prints them. *)
Definition uuid1 : string := "00000000-0000-4000-8000-000000000001".
Definition uuid2 : string := "00000000-0000-4000-8000-000000000002".
Definition uuid3 : string := "00000000-0000-4000-8000-000000000003".
Definition uuid4 : string := "00000000-0000-4000-8000-000000000004".
Definition uuid5 : string := "00000000-0000-4000-8000-000000000005".
Definition uuidA : string := "00000000-0000-4000-8000-00000000000a".

Definition publicPost : Note.t :=
  Note.mk uuid1 "Public Post" "hi" "u-alice" true 10%Z (Some 10%Z) eq_refl.
Definition diary : Note.t :=
  Note.mk uuid2 "Diary" "secret" "u-alice" false 20%Z (Some 20%Z) eq_refl.
Definition todo : Note.t :=
  Note.mk uuid3 "Todo" "milk" "u-bob" false 15%Z (Some 15%Z) eq_refl.

Definition sampleDb : Db.t :=
  Db.mk [alice; bob; carol] [publicPost; diary; todo].


Definition sampleEnv : PgEnv := mkEnv 30%Z uuid4 eq_refl.

(** Carol's session was read while she was an admin. *)
Definition carolSession : Session.t := Session.mk carol.
Definition bobSession : Session.t := Session.mk bob.
Definition aliceSession : Session.t := Session.mk alice.


Definition emptyTitle : NoteData.t := NoteData.mk (Some "") None None.
Definition newTitle : NoteData.t := NoteData.mk (Some "x") None None.

Definition renamedPost : Note.t :=
  Note.mk uuid1 "x" "hi" "u-alice" true 10%Z (Some 30%Z) eq_refl.

(** A scenario stops with an internal error when a listing misses the
    note it expects there. *)
Definition listed (id : string) (l : list NoteWithUser) : Proc unit :=
  if existsb (fun a => String.eqb (Note.id (note a)) id) l
  then ret tt
  else throw INTERNAL_SERVER_ERROR.

(** Scenario 7 of the specification: Alice publishes a note, Bob sees it
    in his listing and tries to retitle it. *)
Definition scenarioPublicPost : Proc (list Note.t) :=
  noteRouter.create (authenticated aliceSession)
    (createInput "Public Post" "hi" (Some true)) sampleEnv ;;
  seen <- noteRouter.all (authenticated bobSession) ;;
  listed uuid4 seen ;;
  noteRouter.update (authenticated bobSession)
    (updateInput uuid4 newTitle) (mkEnv 40%Z uuid5 eq_refl).

(** Scenario 8: Alice writes a private note, Carol the admin lists it,
    deletes it, and Alice looks it up again. *)
Definition scenarioAdminDelete : Proc NoteWithUser :=
  noteRouter.create (authenticated aliceSession)
    (createInput "Private" "mine" None) sampleEnv ;;
  seen <- noteRouter.adminAll (authenticated carolSession) ;;
  listed uuid4 seen ;;
  noteRouter.adminDelete (authenticated carolSession) (JStr uuid4) ;;
  noteRouter.byId (authenticated aliceSession) (byIdInput uuid4).

(** Unfolds a procedure down to its queries and checks. *)
Ltac run :=
  unfold noteRouter.update, noteRouter.delete, noteRouter.adminDelete,
    noteRouter.adminAll, noteRouter.all, noteRouter.byId, noteRouter.create,
    requireRole, protectedProcedure, input, asUuid, bind, query, throw, ret,
    authenticated, actor;
  cbn [session fst snd].

(** Replaces the length of a literal by its value. *)
Ltac eval_js_length :=
  repeat match goal with
         | |- context [js_length ?s] =>
             let n := eval vm_compute in (js_length s) in
             change (js_length s) with n
         end.

(** ** Strings and uuids *)

Lemma utf16_units_ascii (s : string) :
  (forall c, List.In c (list_ascii_of_string s) -> nat_of_ascii c < 128) ->
  utf16_units 0 s = String.length s.
Proof.
  induction s as [|c s IH]; intros Hs; [reflexivity|].
  cbn [utf16_units String.length].
  assert (Hc : nat_of_ascii c < 128) by (apply Hs; now left).
  assert (Hu : utf8_units (nat_of_ascii c) = 1).
  { unfold utf8_units.
    destruct (Nat.leb_spec 240 (nat_of_ascii c)); [lia | reflexivity]. }
  assert (Ht : utf8_tail (nat_of_ascii c) = 0).
  { unfold utf8_tail.
    destruct (Nat.ltb_spec (nat_of_ascii c) 192); [reflexivity | lia]. }
  rewrite Hu, Ht, IH; [reflexivity|].
  intros c' Hc'. apply Hs. now right.
Qed.

(** For a text of ASCII characters the length is the number of
    characters. *)
Lemma js_length_ascii (s : string) :
  (forall c, List.In c (list_ascii_of_string s) -> nat_of_ascii c < 128) ->
  js_length s = String.length s.
Proof. exact (utf16_units_ascii s). Qed.

(** U+00E9, two bytes, is one code unit; U+1F600, four bytes, is two. *)
Example js_length_beyond_ascii :
  js_length (String (ascii_of_nat 195) (String (ascii_of_nat 169) "")) = 1 /\
  js_length (String (ascii_of_nat 240) (String (ascii_of_nat 159)
              (String (ascii_of_nat 152) (String (ascii_of_nat 128) "")))) = 2.
Proof. split; reflexivity. Qed.

(** The server reads capitals, braces and other hyphenations as the same
    uuid, and refuses what is no uuid. *)
Example uuid_in_spellings :
  uuid_in "{00000000-0000-4000-8000-00000000000A}" = Some uuidA /\
  uuid_in "0000000000004000800000000000000a" = Some uuidA /\
  uuid_in "0000-0000-0000-4000-8000-0000-0000-000a" = Some uuidA /\
  uuid_in uuidA = Some uuidA /\
  uuid_in "not-a-uuid" = None /\
  uuid_in "" = None /\
  uuid_in "00000000-0000-4000-8000-00000000000" = None /\
  uuid_in "0-0000000-0000-4000-8000-00000000000a" = None.
Proof. repeat split; reflexivity. Qed.

(** ** Lemmas on queries *)

Section QueryFacts.
Variable A : Type.
Variable key : A -> Z.

Lemma insert_desc_perm (x : A) (l : list A) :
  Permutation (insert_desc key x l) (x :: l).
Proof.
  induction l as [|y l IH]; simpl.
  - apply Permutation_refl.
  - destruct (Z.leb (key y) (key x)).
    + apply Permutation_refl.
    + eapply perm_trans; [apply perm_skip, IH | apply perm_swap].
Qed.

Lemma desc_perm (l : list A) : Permutation (desc key l) l.
Proof.
  induction l as [|x l IH]; simpl.
  - constructor.
  - eapply perm_trans; [apply insert_desc_perm | apply perm_skip, IH].
Qed.

Lemma insert_desc_sorted (x : A) (l : list A) :
  StronglySorted (fun a b => (key b <= key a)%Z) l ->
  StronglySorted (fun a b => (key b <= key a)%Z) (insert_desc key x l).
Proof.
  induction 1 as [|y l Hs IH Hall]; simpl.
  - repeat constructor.
  - destruct (Z.leb (key y) (key x)) eqn:E.
    + apply Z.leb_le in E.
      constructor; [constructor; assumption|].
      constructor; [exact E|].
      eapply Forall_impl; [|exact Hall].
      cbv beta; intros z Hz; lia.
    + apply Z.leb_gt in E.
      constructor; [exact IH|].
      eapply Permutation_Forall;
        [apply Permutation_sym, insert_desc_perm|].
      constructor; [cbv beta; lia | exact Hall].
Qed.

Lemma desc_sorted (l : list A) :
  StronglySorted (fun a b => (key b <= key a)%Z) (desc key l).
Proof.
  induction l as [|x l IH]; simpl.
  - constructor.
  - apply insert_desc_sorted, IH.
Qed.
End QueryFacts.

Section KeyFacts.
Variable A : Type.
Variable key : A -> string.

Lemma findFirst_unique (l : list A) (x : A) :
  NoDup (map key l) -> In x l ->
  findFirst (fun y => String.eqb (key y) (key x)) l = Some x.
Proof.
  unfold findFirst.
  induction l as [|y l IH]; simpl; intros Hnd Hin; [contradiction|].
  inversion Hnd as [|k ks Hnotin Hnd']; subst.
  destruct Hin as [->|Hin].
  - now rewrite String.eqb_refl.
  - destruct (String.eqb (key y) (key x)) eqn:E.
    + apply String.eqb_eq in E. exfalso. apply Hnotin.
      rewrite E. now apply in_map.
    + now apply IH.
Qed.

Lemma findFirst_key_none (l : list A) (k : string) :
  findFirst (fun y => String.eqb (key y) k) l = None <->
  (forall y, In y l -> key y <> k).
Proof.
  unfold findFirst. split.
  - intros H y Hy E.
    pose proof (find_none _ _ H y Hy) as F. simpl in F.
    apply String.eqb_neq in F. contradiction.
  - induction l as [|y l IH]; simpl; intros H; [reflexivity|].
    destruct (String.eqb (key y) k) eqn:E.
    + apply String.eqb_eq in E. exfalso. now apply (H y); [left|].
    + apply IH. intros z Hz. apply H. now right.
Qed.

Lemma findFirst_key_some (l : list A) (k : string) (x : A) :
  findFirst (fun y => String.eqb (key y) k) l = Some x ->
  In x l /\ key x = k.
Proof.
  unfold findFirst. intros H. apply find_some in H as [Hin E].
  split; [exact Hin | now apply String.eqb_eq].
Qed.
End KeyFacts.

(** ** Lemmas on schemas *)

Lemma prop_fold_other (k k' : string) (acc : jsval) o :
  k' <> k ->
  fold_left (fun acc kv => if String.eqb (fst kv) k then snd kv else acc)
            (without k' o) acc
  = fold_left (fun acc kv => if String.eqb (fst kv) k then snd kv else acc)
              o acc.
Proof.
  intros Hne. revert acc.
  induction o as [|[k0 v0] o IH]; intros acc; simpl; [reflexivity|].
  destruct (String.eqb k0 k') eqn:E; simpl.
  - apply String.eqb_eq in E. subst k0.
    apply String.eqb_neq in Hne. rewrite Hne. apply IH.
  - apply IH.
Qed.

Lemma prop_without (k k' : string) o :
  k' <> k -> prop k (without k' o) = prop k o.
Proof. intros H. unfold prop. now apply prop_fold_other. Qed.

Lemma CreateNoteSchema_without_userId o :
  CreateNoteSchema (JObj (without "userId" o)) = CreateNoteSchema (JObj o).
Proof.
  unfold CreateNoteSchema.
  rewrite !prop_without; [reflexivity | discriminate ..].
Qed.


Lemma UpdateInputSchema_updateInput id d :
  validData d -> UpdateInputSchema (updateInput id d) = Some (id, d).
Proof.
  destruct d as [t c p]. unfold validData. cbn [NoteData.title NoteData.content].
  intros [Ht Hc].
  unfold UpdateInputSchema, updateInput, UpdateNoteSchema, prop,
    z_optional, z_max, z_min, z_string, z_boolean, jsOfString, jsOfBool.
  cbn [fold_left fst snd String.eqb Ascii.eqb Bool.eqb NoteData.title
       NoteData.content NoteData.isPublic].
  assert (Et : match t with
               | Some s => Nat.leb 1 (js_length s) = true /\
                           Nat.leb (js_length s) 256 = true
               | None => True end).
  { destruct t as [s|]; [|exact I].
    split; apply Nat.leb_le; apply Ht. }
  assert (Ec : match c with
               | Some s => Nat.leb 1 (js_length s) = true
               | None => True end).
  { destruct c as [s|]; [|exact I]. apply Nat.leb_le. exact Hc. }
  destruct t as [s|]; [destruct Et as [E1 E2]; rewrite E1, E2|];
    (destruct c as [s'|]; [rewrite Ec|]); destruct p; reflexivity.
Qed.

(** ** Failed calls write nothing *)

Lemma update_throw_unchanged ctx raw env db code db' :
  noteRouter.update ctx raw env db = (Throw code, db') -> db' = db.
Proof.
  run. destruct (session ctx) as [s|]; [|congruence].
  destruct (UpdateInputSchema raw) as [[id data]|]; [|congruence].
  cbn [fst snd].
  destruct (uuid_in id) as [uuid|]; [|congruence].
  destruct (findFirst _ (Db.Note db)) as [n|]; [|congruence].
  destruct (negb _); [congruence|].
  unfold updateNote. destruct (noValues data || dataHasNul data);
    [congruence | discriminate].
Qed.

Lemma delete_throw_unchanged ctx raw db code db' :
  noteRouter.delete ctx raw db = (Throw code, db') -> db' = db.
Proof.
  run. destruct (session ctx) as [s|]; [|congruence].
  destruct (z_string raw) as [id|]; [|congruence].
  destruct (uuid_in id) as [uuid|]; [|congruence].
  destruct (findFirst _ (Db.Note db)) as [n|]; [|congruence].
  destruct (negb _); [congruence|].
  unfold deleteNote. discriminate.
Qed.

Lemma adminDelete_throw_unchanged ctx raw db code db' :
  noteRouter.adminDelete ctx raw db = (Throw code, db') -> db' = db.
Proof.
  run. destruct (session ctx) as [s|]; [|congruence].
  destruct (findFirst _ (Db.user db)) as [u|]; [|congruence].
  destruct (includes _ _); [|congruence].
  destruct (z_string raw) as [id|]; [|congruence].
  destruct (uuid_in id) as [uuid|]; [|congruence].
  destruct (findFirst _ (Db.Note db)) as [n|]; [|congruence].
  unfold deleteNote. discriminate.
Qed.

(** C10: whenever [update], [delete] or [adminDelete] throws -- with
    NOT_FOUND or FORBIDDEN in particular -- the database the call leaves
    behind is the one it was given: every check precedes the write. *)
Theorem failed_mutation_leaves_store_unchanged :
  forall ctx raw env db code db',
    (noteRouter.update ctx raw env db = (Throw code, db') -> db' = db) /\
    (noteRouter.delete ctx raw db = (Throw code, db') -> db' = db) /\
    (noteRouter.adminDelete ctx raw db = (Throw code, db') -> db' = db).
Proof.
  intros. repeat split.
  - apply update_throw_unchanged.
  - apply delete_throw_unchanged.
  - apply adminDelete_throw_unchanged.
Qed.

(** ** Ownership checks of [update] and [delete] *)

Lemma update_typed s id d env db :
  validData d ->
  noteRouter.update (authenticated s) (updateInput id d) env db =
  match uuid_in id with
  | None => (Throw INTERNAL_SERVER_ERROR, db)
  | Some uuid =>
      match findFirst (fun n => String.eqb (Note.id n) uuid) (Db.Note db) with
      | None => (Throw NOT_FOUND, db)
      | Some n =>
          if String.eqb (Note.userId n) (actor s)
          then updateNote env d (fun n => String.eqb (Note.id n) uuid) db
          else (Throw FORBIDDEN, db)
      end
  end.
Proof.
  intros Hv. run. rewrite (UpdateInputSchema_updateInput id Hv). cbn [fst snd].
  destruct (uuid_in id) as [uuid|]; [|reflexivity].
  destruct (findFirst _ (Db.Note db)) as [n|]; [|reflexivity].
  now destruct (String.eqb (Note.userId n) (User.id (Session.user s))).
Qed.

Lemma delete_typed s id db :
  noteRouter.delete (authenticated s) (JStr id) db =
  match uuid_in id with
  | None => (Throw INTERNAL_SERVER_ERROR, db)
  | Some uuid =>
      match findFirst (fun n => String.eqb (Note.id n) uuid) (Db.Note db) with
      | None => (Throw NOT_FOUND, db)
      | Some n =>
          if String.eqb (Note.userId n) (actor s)
          then deleteNote (fun n => String.eqb (Note.id n) uuid) db
          else (Throw FORBIDDEN, db)
      end
  end.
Proof.
  run. cbn [z_string].
  destruct (uuid_in id) as [uuid|]; [|reflexivity].
  destruct (findFirst _ (Db.Note db)) as [n|]; [|reflexivity].
  now destruct (String.eqb (Note.userId n) (User.id (Session.user s))).
Qed.

(** C1, as amended: for every stored note N and every authenticated actor
    U other than its owner, whatever role U has in the directory or in the
    session, [update] of N with fields that pass [UpdateNoteSchema] and
    [delete] of N both throw FORBIDDEN and write nothing. *)
Theorem non_owner_update_delete_forbidden :
  forall s db n d env,
    noteIdsUnique db ->
    In n (Db.Note db) ->
    actor s <> Note.userId n ->
    validData d ->
    noteRouter.update (authenticated s) (updateInput (Note.id n) d) env db
      = (Throw FORBIDDEN, db) /\
    noteRouter.delete (authenticated s) (JStr (Note.id n)) db
      = (Throw FORBIDDEN, db).
Proof.
  intros s db n d env Hu Hin Hne Hv.
  rewrite (update_typed s (Note.id n) env db Hv), delete_typed.
  rewrite (Note.id_is_uuid n), (findFirst_unique Note.id _ _ Hu Hin).
  assert (E : String.eqb (Note.userId n) (actor s) = false).
  { apply String.eqb_neq. congruence. }
  now rewrite E.
Qed.

(** Carol, an admin, on Alice's public post. *)
Lemma non_owner_update_delete_forbidden_witness :
  noteRouter.update (authenticated carolSession)
                    (updateInput uuid1 newTitle) sampleEnv sampleDb
    = (Throw FORBIDDEN, sampleDb) /\
  noteRouter.delete (authenticated carolSession) (JStr uuid1) sampleDb
    = (Throw FORBIDDEN, sampleDb).
Proof.
  apply (@non_owner_update_delete_forbidden
           carolSession sampleDb publicPost newTitle sampleEnv).
  - unfold noteIdsUnique. simpl.
    repeat constructor; simpl; intuition discriminate.
  - simpl. now left.
  - discriminate.
  - unfold validData, newTitle. cbn [NoteData.title NoteData.content].
    eval_js_length. lia.
Defined.

(** C1 as stated fails where the fields do not pass the schema: Bob, a
    plain user who does not own Alice's post, sends an empty title and the
    call is refused as BAD_REQUEST before the ownership check is reached. *)
Lemma non_owner_update_invalid_fields_bad_request :
  In publicPost (Db.Note sampleDb) /\
  actor bobSession <> Note.userId publicPost /\
  User.role (Session.user bobSession) <> "admin" /\
  hasRole sampleDb (actor bobSession) "user" /\
  noteRouter.update (authenticated bobSession)
                    (updateInput (Note.id publicPost) emptyTitle)
                    sampleEnv sampleDb
    = (Throw BAD_REQUEST, sampleDb) /\
  fst (noteRouter.update (authenticated bobSession)
                         (updateInput (Note.id publicPost) emptyTitle)
                         sampleEnv sampleDb)
    <> Throw FORBIDDEN.
Proof.
  repeat split.
  - simpl. now left.
  - discriminate.
  - discriminate.
  - exists bob. repeat split. simpl. tauto.
  - discriminate.
Qed.

(** ** Frame of [update] *)

Lemma set_updatedRow id data env n :
  Note.id n = id -> updatedRow id data env n (set_ data env n).
Proof.
  intros E. right. unfold supplied.
  destruct data as [t c p]; simpl.
  repeat split; try assumption; [destruct t | destruct c | destruct p];
    reflexivity.
Qed.

Lemma updateNote_rows id data env (l : list Note.t) :
  Forall2 (updatedRow id data env) l
    (map (fun n => if String.eqb (Note.id n) id then set_ data env n else n) l).
Proof.
  induction l as [|n l IH]; simpl; constructor; [|exact IH].
  destruct (String.eqb (Note.id n) id) eqn:E.
  - apply set_updatedRow. now apply String.eqb_eq.
  - left. split; [now apply String.eqb_neq | reflexivity].
Qed.

Lemma updateNote_returning id data env (l : list Note.t) :
  map (set_ data env) (filter (fun n => String.eqb (Note.id n) id) l) =
  filter (fun n => String.eqb (Note.id n) id)
    (map (fun n => if String.eqb (Note.id n) id then set_ data env n else n) l).
Proof.
  induction l as [|n l IH]; simpl; [reflexivity|].
  destruct (String.eqb (Note.id n) id) eqn:E; simpl; rewrite E, IH; reflexivity.
Qed.

(** C9: a successful [update] leaves the user table and every other row
    alone; in a row it updates -- one whose [id] is the uuid that the id
    of the input spells -- [id], [userId] and [createdAt] are kept, each
    of [title], [content], [isPublic] takes the supplied value or keeps
    its old one, and [updatedAt] is set; the rows returned are the
    updated ones. *)
Theorem update_changes_only_supplied_fields :
  forall ctx raw env db rows db',
    noteRouter.update ctx raw env db = (Ok rows, db') ->
    exists id uuid data,
      UpdateInputSchema raw = Some (id, data) /\
      uuid_in id = Some uuid /\
      Db.user db' = Db.user db /\
      Forall2 (updatedRow uuid data env) (Db.Note db) (Db.Note db') /\
      rows = filter (fun n => String.eqb (Note.id n) uuid) (Db.Note db').
Proof.
  intros ctx raw env db rows db'. run.
  destruct (session ctx) as [s|]; [|discriminate].
  destruct (UpdateInputSchema raw) as [[id data]|]; [|discriminate].
  cbn [fst snd].
  destruct (uuid_in id) as [uuid|] eqn:Eid; [|discriminate].
  destruct (findFirst _ (Db.Note db)) as [n|]; [|discriminate].
  destruct (negb _); [discriminate|].
  unfold updateNote.
  destruct (noValues data || dataHasNul data); [discriminate|].
  intros H. inversion H; subst; clear H.
  exists id, uuid, data. cbn [Db.user Db.Note].
  split; [reflexivity|]. split; [exact Eid|]. split; [reflexivity|]. split.
  - apply updateNote_rows.
  - apply updateNote_returning.
Qed.

(** Alice renames her post: the other two notes are as they were. *)
Lemma update_changes_only_supplied_fields_witness :
  exists id uuid data,
    UpdateInputSchema
      (updateInput uuid1 newTitle)
      = Some (id, data) /\
    uuid_in id = Some uuid /\
    Db.user (Db.mk [alice; bob; carol] [renamedPost; diary; todo])
      = Db.user sampleDb /\
    Forall2 (updatedRow uuid data sampleEnv)
            (Db.Note sampleDb) [renamedPost; diary; todo] /\
    [renamedPost] =
      filter (fun n => String.eqb (Note.id n) uuid) [renamedPost; diary; todo].
Proof.
  apply (@update_changes_only_supplied_fields
           (authenticated aliceSession)
           (updateInput uuid1 newTitle)
           sampleEnv sampleDb [renamedPost]
           (Db.mk [alice; bob; carol] [renamedPost; diary; todo])).
  vm_compute. reflexivity.
Defined.

(** ** Role resolution *)

Lemma includes_admin r : includes ["admin"] r = String.eqb r "admin".
Proof. unfold includes. simpl. apply orb_false_r. Qed.

Lemma hasRole_lookup db uid r :
  userIdsUnique db ->
  hasRole db uid r ->
  exists u, findFirst (fun u => String.eqb (User.id u) uid) (Db.user db) = Some u
            /\ User.role u = r.
Proof.
  intros Hu (u & Hin & Hid & Hr). exists u. split; [|exact Hr].
  subst uid. now apply (findFirst_unique User.id).
Qed.

Lemma requireRole_denied A s (next : Session.t -> string -> Proc A) db :
  ~ hasRole db (actor s) "admin" ->
  requireRole ["admin"] (authenticated s) next db = (Throw FORBIDDEN, db).
Proof.
  intros Hno. run.
  destruct (findFirst _ (Db.user db)) as [u|] eqn:E; [|reflexivity].
  apply (findFirst_key_some User.id) in E as [Hin Hid].
  rewrite includes_admin.
  destruct (String.eqb (User.role u) "admin") eqn:R; [|reflexivity].
  apply String.eqb_eq in R. exfalso. apply Hno. now exists u.
Qed.

Lemma requireRole_granted A s (next : Session.t -> string -> Proc A) db :
  userIdsUnique db ->
  hasRole db (actor s) "admin" ->
  requireRole ["admin"] (authenticated s) next db = next s "admin" db.
Proof.
  intros Hu Hr. destruct (hasRole_lookup Hu Hr) as (u & E & R).
  run. unfold actor in E. rewrite E, includes_admin, R. reflexivity.
Qed.

(** C3: the role is looked up in the user table on the call itself and
    the session's own copy of the user is never consulted: in every
    database where no record of the actor carries the role admin, both
    privileged procedures throw FORBIDDEN, whatever the session says. *)
Theorem privileged_calls_read_role_from_directory :
  forall s raw db,
    (forall u, In u (Db.user db) -> User.id u = actor s ->
               User.role u <> "admin") ->
    noteRouter.adminAll (authenticated s) db = (Throw FORBIDDEN, db) /\
    noteRouter.adminDelete (authenticated s) raw db = (Throw FORBIDDEN, db).
Proof.
  intros s raw db Hno.
  assert (H : ~ hasRole db (actor s) "admin").
  { intros (u & Hin & Hid & Hr). exact (Hno u Hin Hid Hr). }
  split; unfold noteRouter.adminAll, noteRouter.adminDelete;
    now apply requireRole_denied.
Qed.

(** Carol lists every note as an admin, is demoted in the directory, and
    her next calls are refused although her session still says admin. *)
Lemma privileged_calls_read_role_from_directory_witness :
  succeeds (noteRouter.adminAll (authenticated carolSession) sampleDb) /\
  User.role (Session.user carolSession) = "admin" /\
  noteRouter.adminAll (authenticated carolSession)
                      (sqlSetRole "carol@example.com" "user" sampleDb)
    = (Throw FORBIDDEN, sqlSetRole "carol@example.com" "user" sampleDb) /\
  noteRouter.adminDelete (authenticated carolSession) (JStr uuid2)
                         (sqlSetRole "carol@example.com" "user" sampleDb)
    = (Throw FORBIDDEN, sqlSetRole "carol@example.com" "user" sampleDb).
Proof.
  split; [eexists; reflexivity|]. split; [reflexivity|].
  apply (@privileged_calls_read_role_from_directory
           carolSession (JStr uuid2)
           (sqlSetRole "carol@example.com" "user" sampleDb)).
  simpl. intros u [<-|[<-|[<-|[]]]]; simpl; discriminate.
Defined.

(** ** [adminDelete] *)




Lemma sampleDb_userIdsUnique : userIdsUnique sampleDb.
Proof.
  unfold userIdsUnique. simpl.
  repeat constructor; simpl; intuition discriminate.
Qed.



(** ** [create] *)

Lemma length_zero_iff_empty (s : string) : js_length s = 0 <-> s = "".
Proof.
  destruct s as [|c rest]; split; intros H;
    try reflexivity; try discriminate H.
  unfold js_length in H. cbn [utf16_units] in H. unfold utf8_units in H.
  destruct (Nat.leb 240 (nat_of_ascii c) && Nat.ltb (nat_of_ascii c) 248);
    discriminate H.
Qed.



Lemma insertNote_ok env i uid db rows db' :
  insertNote env i uid db = (Ok rows, db') ->
  exists n, rows = [n] /\
            Db.Note db' = Db.Note db ++ [n] /\
            Db.user db' = Db.user db /\
            Note.userId n = uid /\
            Note.id n = gen_random_uuid env /\
            Note.title n = NewNote.title i /\
            Note.content n = NewNote.content i.
Proof.
  unfold insertNote.
  destruct (hasNul _ || hasNul _); [discriminate|].
  destruct (existsb _ (Db.Note db)); [discriminate|].
  destruct (existsb _ (Db.user db)); [|discriminate].
  intros H. inversion H; subst; clear H.
  eexists. repeat split.
Qed.


(** C2: a successful [create] stores exactly one new row, appended to the
    table, and its [userId] is the actor's id; whatever the client put
    under the key [userId] has no effect on the call. *)
Theorem created_note_is_owned_by_actor :
  forall s env db,
    (forall raw rows db',
        noteRouter.create (authenticated s) raw env db = (Ok rows, db') ->
        exists n, rows = [n] /\
                  Db.Note db' = Db.Note db ++ [n] /\
                  Note.userId n = actor s) /\
    (forall o,
        noteRouter.create (authenticated s) (JObj o) env db =
        noteRouter.create (authenticated s) (JObj (without "userId" o)) env db).
Proof.
  intros s env db. split.
  - intros raw rows db'. run.
    destruct (CreateNoteSchema raw) as [i|]; [|discriminate].
    intros H. apply insertNote_ok in H as (n & -> & Hn & _ & Hu & _).
    now exists n.
  - intros o. run. now rewrite CreateNoteSchema_without_userId.
Qed.

(** Bob sends Alice's id as the owner of his note. *)
Lemma created_note_is_owned_by_actor_witness :
  exists n,
    [Note.mk uuid4 "Mine" "text" "u-bob" false 30%Z (Some 30%Z) eq_refl] = [n] /\
    Db.Note (Db.mk [alice; bob; carol]
               [publicPost; diary; todo;
                Note.mk uuid4 "Mine" "text" "u-bob" false 30%Z (Some 30%Z) eq_refl])
      = Db.Note sampleDb ++ [n] /\
    Note.userId n = actor bobSession.
Proof.
  apply (proj1 (created_note_is_owned_by_actor bobSession sampleEnv sampleDb)
               (JObj [("title", JStr "Mine"); ("content", JStr "text");
                      ("userId", JStr "u-alice")])).
  vm_compute. reflexivity.
Defined.




(** ** Reading *)

Lemma findFirst_none_iff A (p : A -> bool) (l : list A) :
  findFirst p l = None <-> forall x, In x l -> p x = false.
Proof.
  unfold findFirst. split.
  - intros H x Hx. exact (find_none _ _ H x Hx).
  - induction l as [|y l IH]; simpl; intros H; [reflexivity|].
    rewrite (H y (or_introl eq_refl)). apply IH.
    intros x Hx. apply H. now right.
Qed.

Lemma ownOrPublic_spec uid n : ownOrPublic uid n = true <-> mayRead uid n.
Proof.
  unfold ownOrPublic, mayRead.
  rewrite orb_true_iff, String.eqb_eq, Bool.eqb_true_iff. tauto.
Qed.

Lemma byId_typed s id db :
  noteRouter.byId (authenticated s) (byIdInput id) db =
  match uuid_in id with
  | None => (Throw INTERNAL_SERVER_ERROR, db)
  | Some uuid =>
      match findFirst (fun n => String.eqb (Note.id n) uuid
                                && ownOrPublic (actor s) n)
                      (Db.Note db) with
      | None => (Throw NOT_FOUND, db)
      | Some n => (Ok (withUser publicColumns (Db.user db) n), db)
      end
  end.
Proof.
  run. unfold byIdInput, ByIdSchema, prop. cbn [fold_left fst snd String.eqb
    Ascii.eqb Bool.eqb z_string].
  destruct (uuid_in id); [|reflexivity].
  now destruct (findFirst _ (Db.Note db)).
Qed.

(** C4: [byId] succeeds exactly when some note has the uuid that the id
    spells and is the actor's own or public, and returns such a note. A
    private note of somebody else is answered with NOT_FOUND, as a uuid
    that no note has is, and [byId] never throws FORBIDDEN. The one other
    failure is an id that spells no uuid, which PostgreSQL refuses. *)
Theorem byId_hides_private_notes :
  forall s id db,
    let r := noteRouter.byId (authenticated s) (byIdInput id) db in
    (succeeds r <->
       exists n, In n (Db.Note db) /\ uuid_in id = Some (Note.id n) /\
                 mayRead (actor s) n) /\
    (forall a, fst r = Ok a ->
       In (note a) (Db.Note db) /\ uuid_in id = Some (Note.id (note a)) /\
       mayRead (actor s) (note a)) /\
    (forall n, noteIdsUnique db -> In n (Db.Note db) ->
               uuid_in id = Some (Note.id n) ->
               Note.userId n <> actor s -> Note.isPublic n = false ->
               r = (Throw NOT_FOUND, db)) /\
    (forall uuid, uuid_in id = Some uuid ->
               (forall n, In n (Db.Note db) -> Note.id n <> uuid) ->
               r = (Throw NOT_FOUND, db)) /\
    (~ succeeds r ->
       r = (Throw NOT_FOUND, db) /\ uuid_in id <> None \/
       r = (Throw INTERNAL_SERVER_ERROR, db) /\ uuid_in id = None) /\
    fst r <> Throw FORBIDDEN.
Proof.
  intros s id db r. subst r. rewrite byId_typed.
  destruct (uuid_in id) as [uuid|] eqn:Eid.
  2:{ cbn [fst snd]. split; [|split; [|split; [|split; [|split]]]];
        try discriminate.
      - split; [intros [a Ha]; discriminate Ha|].
        intros (n & _ & Hn & _). discriminate Hn.
      - intros _. right. split; reflexivity. }
  destruct (findFirst _ (Db.Note db)) as [m|] eqn:F.
  - apply find_some in F as [Hin Hp].
    apply andb_true_iff in Hp as [Hid Hvis].
    apply String.eqb_eq in Hid. apply ownOrPublic_spec in Hvis. subst uuid.
    cbn [fst snd]. split; [|split; [|split; [|split; [|split]]]].
    + split; [intros _; exists m; tauto | intros _; eexists; reflexivity].
    + intros a Ha. inversion Ha; subst a. cbn [note]. tauto.
    + intros n Hu Hn Hnid Hown Hpriv.
      assert (n = m).
      { pose proof (findFirst_unique Note.id _ _ Hu Hn) as E1.
        pose proof (findFirst_unique Note.id _ _ Hu Hin) as E2.
        assert (Note.id n = Note.id m) as E by congruence.
        rewrite E in E1. congruence. }
      subst m. destruct Hvis as [Hv|Hv]; congruence.
    + intros u Hu Habs. exfalso. apply (Habs m Hin). congruence.
    + intros Hno. exfalso. apply Hno. eexists. reflexivity.
    + discriminate.
  - pose proof (proj1 (findFirst_none_iff _ _) F) as Hnone.
    cbn [fst snd]. split; [|split; [|split; [|split; [|split]]]].
    + split; [intros [a Ha]; discriminate Ha|].
      intros (n & Hin & Hid & Hvis). exfalso.
      specialize (Hnone n Hin). cbv beta in Hnone.
      assert (Note.id n = uuid) as E by congruence.
      apply String.eqb_eq in E. apply ownOrPublic_spec in Hvis.
      rewrite E, Hvis in Hnone. discriminate.
    + intros a Ha. discriminate Ha.
    + reflexivity.
    + reflexivity.
    + intros _. left. split; [reflexivity | discriminate].
    + discriminate.
Qed.

(** Bob asks for Alice's private diary, spelling its id in capitals and
    braces, and for her public post. *)
Lemma byId_hides_private_notes_witness :
  noteRouter.byId (authenticated bobSession)
                  (byIdInput "{00000000-0000-4000-8000-000000000002}") sampleDb
    = (Throw NOT_FOUND, sampleDb) /\
  succeeds (noteRouter.byId (authenticated bobSession)
                            (byIdInput (Note.id publicPost)) sampleDb).
Proof.
  split.
  - apply (proj1 (proj2 (proj2
       (byId_hides_private_notes bobSession
          "{00000000-0000-4000-8000-000000000002}" sampleDb))) diary).
    + unfold noteIdsUnique. simpl.
      repeat constructor; simpl; intuition discriminate.
    + simpl. tauto.
    + reflexivity.
    + discriminate.
    + reflexivity.
  - apply (proj1 (byId_hides_private_notes bobSession (Note.id publicPost)
                                           sampleDb)).
    exists publicPost. simpl. unfold mayRead. simpl. tauto.
Defined.

(** ** Listings *)

Lemma note_withUser c users (l : list Note.t) :
  map note (map (withUser c users) l) = l.
Proof.
  induction l as [|n l IH]; simpl; [reflexivity | now rewrite IH].
Qed.

(** C6: for every authenticated actor and every database, whatever the
    roles in it, [all] returns the notes that are the actor's own or
    public -- each of them once, no other -- with the newest first. *)
Theorem all_lists_own_and_public_notes :
  forall s db,
    exists r,
      noteRouter.all (authenticated s) db = (Ok r, db) /\
      (forall n, In n (map note r) <->
                 In n (Db.Note db) /\ mayRead (actor s) n) /\
      Permutation (map note r) (filter (ownOrPublic (actor s)) (Db.Note db)) /\
      newestFirst (map note r).
Proof.
  intros s db. eexists. split; [reflexivity|].
  rewrite note_withUser. unfold findMany.
  assert (P : Permutation
                (desc Note.createdAt (filter (ownOrPublic (actor s)) (Db.Note db)))
                (filter (ownOrPublic (actor s)) (Db.Note db)))
    by apply desc_perm.
  split; [|split].
  - intros n. rewrite <- ownOrPublic_spec, <- filter_In.
    split; intros H.
    + eapply Permutation_in; [exact P | exact H].
    + eapply Permutation_in; [apply Permutation_sym; exact P | exact H].
  - exact P.
  - apply desc_sorted.
Qed.

(** ** [adminAll] *)

(** C5, as amended: with the role admin in the directory, [adminAll]
    returns every stored note, each once, the newest first, and attaches
    to each the owner's id, name, email, role and image. *)
Theorem adminAll_lists_every_note_with_owner :
  forall s db,
    userIdsUnique db ->
    hasRole db (actor s) "admin" ->
    exists r,
      noteRouter.adminAll (authenticated s) db = (Ok r, db) /\
      Permutation (map note r) (Db.Note db) /\
      newestFirst (map note r) /\
      (forall a u, In a r -> In u (Db.user db) ->
                   User.id u = Note.userId (note a) ->
                   owner a = Some (Owner.mk (Some (User.id u))
                                            (Some (User.name u))
                                            (Some (User.email u))
                                            (Some (User.role u))
                                            (Some (User.image u)))).
Proof.
  intros s db Hu Hr. unfold noteRouter.adminAll.
  rewrite (@requireRole_granted _ s _ db Hu Hr).
  eexists. split; [reflexivity|].
  rewrite note_withUser. unfold findMany.
  assert (F : filter (fun _ : Note.t => true) (Db.Note db) = Db.Note db).
  { induction (Db.Note db) as [|n l IH]; simpl; [reflexivity | now rewrite IH]. }
  rewrite F. split; [apply desc_perm|]. split; [apply desc_sorted|].
  intros a u Ha Hin Hid. apply in_map_iff in Ha as (n & <- & _).
  unfold withUser in *. cbn [owner note] in *.
  rewrite <- Hid, (findFirst_unique User.id _ _ Hu Hin). reflexivity.
Qed.

Lemma adminAll_lists_every_note_with_owner_witness :
  exists r,
    noteRouter.adminAll (authenticated carolSession) sampleDb = (Ok r, sampleDb) /\
    Permutation (map note r) (Db.Note sampleDb) /\
    newestFirst (map note r) /\
    (forall a u, In a r -> In u (Db.user sampleDb) ->
                 User.id u = Note.userId (note a) ->
                 owner a = Some (Owner.mk (Some (User.id u))
                                          (Some (User.name u))
                                          (Some (User.email u))
                                          (Some (User.role u))
                                          (Some (User.image u)))).
Proof.
  apply (@adminAll_lists_every_note_with_owner carolSession sampleDb).
  - exact sampleDb_userIdsUnique.
  - exists carol. simpl. tauto.
Defined.

(** C5 as stated fails on the email: Carol, an admin, lists the notes and
    the owner attached to Alice's diary carries Alice's email address. *)
Lemma adminAll_attaches_owner_email :
  hasRole sampleDb (actor carolSession) "admin" /\
  exists r,
    noteRouter.adminAll (authenticated carolSession) sampleDb = (Ok r, sampleDb) /\
    exists a o,
      In a r /\ note a = diary /\ owner a = Some o /\
      Owner.email o = Some "alice@example.com" /\
      Owner.email o <> None.
Proof.
  split; [exists carol; simpl; tauto|].
  eexists. split; [vm_compute; reflexivity|].
  eexists. eexists. split; [left; reflexivity|].
  split; [reflexivity|]. split; [reflexivity|]. split; [reflexivity|discriminate].
Qed.

(** Bob's refused deletion of Alice's post leaves the database as it was. *)
Lemma failed_mutation_leaves_store_unchanged_witness :
  snd (noteRouter.delete (authenticated bobSession) (JStr uuid1) sampleDb)
    = sampleDb.
Proof.
  apply (proj1 (proj2 (failed_mutation_leaves_store_unchanged
                         (authenticated bobSession) (JStr uuid1) sampleEnv
                         sampleDb FORBIDDEN
                         (snd (noteRouter.delete (authenticated bobSession)
                                                 (JStr uuid1) sampleDb))))).
  reflexivity.
Defined.

(** ** The constraints of the schema are kept by every procedure *)

Lemma filter_keeps_keys_unique (K R : Type) (key : R -> K) (keep : R -> bool) :
  forall rows : list R,
    NoDup (map key rows) -> NoDup (map key (filter keep rows)).
Proof.
  intros rows Hnd. induction rows as [|x rows IH]; simpl; [constructor|].
  simpl in Hnd. apply NoDup_cons_iff in Hnd as [Hfresh Hrest].
  destruct (keep x); simpl; [constructor|]; auto.
  intros Hin. apply Hfresh. apply in_map_iff in Hin as (z & Hz & Hzin).
  apply in_map_iff. exists z. split; [exact Hz|].
  now apply filter_In in Hzin as [Hzin _].
Qed.

Lemma insertNote_consistent env i uid db :
  consistent db -> consistent (snd (insertNote env i uid db)).
Proof.
  intros (Hn & Hu & Ho). unfold insertNote. cbn [Note.id].
  destruct (hasNul _ || hasNul _); [now repeat split|].
  destruct (existsb _ (Db.Note db)) eqn:E1; [now repeat split|].
  destruct (existsb _ (Db.user db)) eqn:E2; [|now repeat split].
  cbn [snd]. split; [|split].
  - unfold noteIdsUnique in *. cbn [Db.Note].
    rewrite map_app. cbn [map Note.id].
    apply NoDup_app; [exact Hn | repeat constructor; intros [] |].
    intros k Hk [<-|[]]. apply in_map_iff in Hk as (n & Hid & Hin).
    assert (F : existsb (fun n => String.eqb (Note.id n) (gen_random_uuid env))
                        (Db.Note db) = true).
    { apply existsb_exists. exists n. split; [exact Hin|].
      now apply String.eqb_eq. }
    congruence.
  - exact Hu.
  - intros n. cbn [Db.Note Db.user]. rewrite in_app_iff.
    intros [Hin|[<-|[]]]; [now apply Ho|].
    apply existsb_exists in E2 as (u & Hin & Hid).
    exists u. split; [exact Hin | now apply String.eqb_eq].
Qed.

Lemma updateNote_consistent env data w db :
  consistent db -> consistent (snd (updateNote env data w db)).
Proof.
  intros (Hn & Hu & Ho). unfold updateNote.
  destruct (noValues data || dataHasNul data); [now repeat split|].
  cbn [snd]. split; [|split].
  - unfold noteIdsUnique in *. cbn [Db.Note]. rewrite map_map.
    erewrite map_ext; [exact Hn|].
    intros n. now destruct (w n).
  - exact Hu.
  - intros n. cbn [Db.Note Db.user]. intros Hin.
    apply in_map_iff in Hin as (m & <- & Hm).
    destruct (Ho m Hm) as (u & Hin & Hid).
    exists u. split; [exact Hin|]. now destruct (w m).
Qed.

Lemma deleteNote_consistent w db :
  consistent db -> consistent (snd (deleteNote w db)).
Proof.
  intros (Hn & Hu & Ho). unfold deleteNote. cbn [snd].
  split; [|split].
  - unfold noteIdsUnique in *. cbn [Db.Note]. now apply filter_keeps_keys_unique.
  - exact Hu.
  - intros n. cbn [Db.Note Db.user]. intros Hin.
    apply filter_In in Hin as [Hin _]. now apply Ho.
Qed.

(** X18: the four mutations keep the constraints of the schema, whatever
    their outcome: note ids and user ids stay unique and every note
    still belongs to a user of the user table. *)
Lemma mutations_keep_constraints ctx raw env db :
  consistent db ->
  consistent (snd (noteRouter.create ctx raw env db)) /\
  consistent (snd (noteRouter.update ctx raw env db)) /\
  consistent (snd (noteRouter.delete ctx raw db)) /\
  consistent (snd (noteRouter.adminDelete ctx raw db)).
Proof.
  intros Hc. split; [|split; [|split]]; run.
  - destruct (session ctx); [|exact Hc].
    destruct (CreateNoteSchema raw); [|exact Hc].
    now apply insertNote_consistent.
  - destruct (session ctx); [|exact Hc].
    destruct (UpdateInputSchema raw) as [[id data]|]; [|exact Hc].
    cbn [fst snd].
    destruct (uuid_in id); [|exact Hc].
    destruct (findFirst _ (Db.Note db)); [|exact Hc].
    destruct (negb _); [exact Hc|].
    now apply updateNote_consistent.
  - destruct (session ctx); [|exact Hc].
    destruct (z_string raw) as [id|]; [|exact Hc].
    destruct (uuid_in id); [|exact Hc].
    destruct (findFirst _ (Db.Note db)); [|exact Hc].
    destruct (negb _); [exact Hc|].
    now apply deleteNote_consistent.
  - destruct (session ctx); [|exact Hc].
    destruct (findFirst _ (Db.user db)); [|exact Hc].
    destruct (includes _ _); [|exact Hc].
    destruct (z_string raw) as [id|]; [|exact Hc].
    destruct (uuid_in id); [|exact Hc].
    destruct (findFirst _ (Db.Note db)); [|exact Hc].
    now apply deleteNote_consistent.
Qed.

Lemma sampleDb_consistent : consistent sampleDb.
Proof.
  split; [|split].
  - unfold noteIdsUnique. simpl.
    repeat constructor; simpl; intuition discriminate.
  - exact sampleDb_userIdsUnique.
  - intros n. simpl. intros [<-|[<-|[<-|[]]]];
      [exists alice | exists alice | exists bob]; simpl; tauto.
Qed.

(** ** The scenarios of the specification *)

Example scenarioPublicPost_forbidden :
  scenarioPublicPost sampleDb =
  (Throw FORBIDDEN,
   Db.mk [alice; bob; carol]
         [publicPost; diary; todo;
          Note.mk uuid4 "Public Post" "hi" "u-alice" true 30%Z (Some 30%Z) eq_refl]).
Proof. vm_compute. reflexivity. Qed.

Example scenarioAdminDelete_not_found :
  scenarioAdminDelete sampleDb = (Throw NOT_FOUND, sampleDb).
Proof. vm_compute. reflexivity. Qed.

(** ** Listings compared *)

Section FilterSorted.
Variable A : Type.
Variable key : A -> Z.
Variable keep : A -> bool.

Lemma insert_desc_front (x : A) (m : list A) :
  Forall (fun z => (key z <= key x)%Z) m -> insert_desc key x m = x :: m.
Proof.
  destruct m as [|z m]; simpl; [reflexivity|].
  intros H. apply Forall_inv in H. apply Z.leb_le in H. now rewrite H.
Qed.

Lemma filter_insert_desc (x : A) (l : list A) :
  StronglySorted (fun a b => (key b <= key a)%Z) l ->
  filter keep (insert_desc key x l) =
  if keep x then insert_desc key x (filter keep l) else filter keep l.
Proof.
  induction 1 as [|y l Hs IH Hall]; simpl.
  - now destruct (keep x).
  - destruct (Z.leb (key y) (key x)) eqn:E.
    + apply Z.leb_le in E. cbn [filter].
      destruct (keep x); [|reflexivity].
      symmetry. apply insert_desc_front.
      assert (Hbelow : Forall (fun z => (key z <= key x)%Z) (y :: l)).
      { constructor; [exact E|].
        eapply Forall_impl; [|exact Hall]. cbv beta. intros z Hz. lia. }
      apply Forall_forall. intros z Hz.
      change (if keep y then y :: filter keep l else filter keep l)
        with (filter keep (y :: l)) in Hz.
      apply filter_In in Hz as [Hz _].
      exact (proj1 (Forall_forall _ _) Hbelow z Hz).
    + cbn [filter]. rewrite IH.
      destruct (keep x), (keep y); cbn [insert_desc]; rewrite ?E; reflexivity.
Qed.

Lemma filter_desc (l : list A) :
  filter keep (desc key l) = desc key (filter keep l).
Proof.
  induction l as [|x l IH]; simpl; [reflexivity|].
  rewrite filter_insert_desc by apply desc_sorted.
  rewrite IH. now destruct (keep x).
Qed.
End FilterSorted.

Lemma filter_narrow A (p q : A -> bool) (l : list A) :
  (forall x, p x = true -> q x = true) ->
  filter p (filter q l) = filter p l.
Proof.
  intros Hpq. induction l as [|x l IH]; simpl; [reflexivity|].
  destruct (q x) eqn:Q; simpl.
  - now rewrite IH.
  - destruct (p x) eqn:P; [|exact IH].
    rewrite (Hpq x P) in Q. discriminate.
Qed.

Lemma filter_all A (l : list A) : filter (fun _ => true) l = l.
Proof. induction l as [|x l IH]; simpl; [reflexivity | now rewrite IH]. Qed.

(** X1: [myNotes] returns the notes whose [userId] is the actor's id --
    each once, no other, public or not -- with the newest first, and
    attaches no owner to them. *)
Theorem myNotes_lists_own_notes :
  forall s db,
    exists r,
      noteRouter.myNotes (authenticated s) db = (Ok r, db) /\
      (forall n, In n r <-> In n (Db.Note db) /\ Note.userId n = actor s) /\
      Permutation r (filter (ownedBy (actor s)) (Db.Note db)) /\
      newestFirst r.
Proof.
  intros s db. eexists. split; [reflexivity|]. unfold findMany.
  assert (P : Permutation
                (desc Note.createdAt (filter (ownedBy (actor s)) (Db.Note db)))
                (filter (ownedBy (actor s)) (Db.Note db)))
    by apply desc_perm.
  split; [|split].
  - intros n. split; intros H.
    + apply (Permutation_in _ P) in H. apply filter_In in H as [Hin Ho].
      split; [exact Hin | now apply String.eqb_eq].
    + apply (Permutation_in _ (Permutation_sym P)). apply filter_In.
      destruct H as [Hin Ho]. split; [exact Hin | now apply String.eqb_eq].
  - exact P.
  - apply desc_sorted.
Qed.

(** X2: the listing of [myNotes] is the listing of [all] with the notes
    of other owners taken out; where no two notes share a [createdAt], so
    that the query fixes the order, they also come in the same order. *)
Theorem myNotes_is_own_part_of_all :
  forall s db,
    exists mine listing,
      noteRouter.myNotes (authenticated s) db = (Ok mine, db) /\
      noteRouter.all (authenticated s) db = (Ok listing, db) /\
      (forall n, In n mine <->
                 In n (map note listing) /\ Note.userId n = actor s) /\
      (NoDup (map Note.createdAt (Db.Note db)) ->
       mine = filter (ownedBy (actor s)) (map note listing)).
Proof.
  intros s db. eexists. eexists. split; [reflexivity|]. split; [reflexivity|].
  rewrite note_withUser. unfold findMany.
  assert (E : desc Note.createdAt
                (filter (fun n => String.eqb (Note.userId n)
                                             (User.id (Session.user s)))
                        (Db.Note db))
              = filter (ownedBy (actor s))
                  (desc Note.createdAt
                     (filter (ownOrPublic (User.id (Session.user s)))
                             (Db.Note db)))).
  { rewrite filter_desc, filter_narrow; [reflexivity|].
    intros n H. unfold ownOrPublic. unfold ownedBy, actor in H. now rewrite H. }
  split; [|intros _; exact E].
  intros n. rewrite E, filter_In. unfold ownedBy.
  now rewrite String.eqb_eq.
Qed.

Lemma myNotes_is_own_part_of_all_witness :
  exists mine listing,
    noteRouter.myNotes (authenticated aliceSession) sampleDb = (Ok mine, sampleDb) /\
    noteRouter.all (authenticated aliceSession) sampleDb = (Ok listing, sampleDb) /\
    mine = filter (ownedBy (actor aliceSession)) (map note listing).
Proof.
  destruct (myNotes_is_own_part_of_all aliceSession sampleDb)
    as (mine & listing & E1 & E2 & _ & Horder).
  exists mine, listing. split; [exact E1|]. split; [exact E2|].
  apply Horder. simpl. repeat constructor; simpl; intuition discriminate.
Defined.

Lemma withoutEmail_adminColumns users n :
  withoutEmail (withUser adminColumns users n) = withUser publicColumns users n.
Proof.
  unfold withoutEmail, withUser. cbn [note owner].
  now destruct (findFirst _ users).
Qed.

Lemma filter_withUser c users (keep : Note.t -> bool) (l : list Note.t) :
  filter (fun b => keep (note b)) (map (withUser c users) l)
  = map (withUser c users) (filter keep l).
Proof.
  induction l as [|n l IH]; simpl; [reflexivity|].
  destruct (keep n); simpl; now rewrite IH.
Qed.

(** X3: what [all] lists for an actor is what [adminAll] lists for an
    admin with the notes the actor may not read taken out and the email
    taken off each attached owner; where no two notes share a
    [createdAt], they also come in the same order. *)
Theorem all_is_readable_part_of_adminAll :
  forall s admin db,
    userIdsUnique db ->
    hasRole db (actor admin) "admin" ->
    exists listing everything,
      noteRouter.all (authenticated s) db = (Ok listing, db) /\
      noteRouter.adminAll (authenticated admin) db = (Ok everything, db) /\
      (forall a, In a listing <->
                 exists b, In b everything /\ mayRead (actor s) (note b) /\
                           a = withoutEmail b) /\
      (forall n, In n (map note listing) <->
                 In n (map note everything) /\ mayRead (actor s) n) /\
      (NoDup (map Note.createdAt (Db.Note db)) ->
       listing = map withoutEmail
                     (filter (fun b => ownOrPublic (actor s) (note b))
                             everything) /\
       map note listing = filter (ownOrPublic (actor s)) (map note everything)).
Proof.
  intros s admin db Hu Hr. unfold noteRouter.adminAll.
  rewrite (@requireRole_granted _ admin _ db Hu Hr).
  eexists. eexists. split; [reflexivity|]. split; [reflexivity|].
  rewrite !note_withUser. unfold findMany. rewrite filter_all.
  fold (actor s).
  assert (E : desc Note.createdAt (filter (ownOrPublic (actor s)) (Db.Note db))
              = filter (ownOrPublic (actor s)) (desc Note.createdAt (Db.Note db)))
    by (symmetry; apply filter_desc).
  split; [|split].
  - intros a. rewrite E. split.
    + intros Ha. apply in_map_iff in Ha as (n & <- & Hn).
      apply filter_In in Hn as [Hn Hread].
      exists (withUser adminColumns (Db.user db) n).
      split; [now apply in_map|]. cbn [note withUser].
      split; [now apply ownOrPublic_spec|].
      symmetry. apply withoutEmail_adminColumns.
    + intros (b & Hb & Hread & ->).
      apply in_map_iff in Hb as (n & <- & Hn).
      rewrite withoutEmail_adminColumns. apply in_map.
      apply filter_In. split; [exact Hn|].
      now apply ownOrPublic_spec.
  - intros n. rewrite E, filter_In, ownOrPublic_spec. tauto.
  - intros _. split; [|exact E].
    rewrite filter_withUser, map_map, E.
    apply map_ext. intros n. symmetry. apply withoutEmail_adminColumns.
Qed.

(** Bob's listing against Carol's: the same notes without Alice's
    diary, and without Alice's email on her public post. *)
Lemma all_is_readable_part_of_adminAll_witness :
  exists listing everything,
    noteRouter.all (authenticated bobSession) sampleDb = (Ok listing, sampleDb) /\
    noteRouter.adminAll (authenticated carolSession) sampleDb
      = (Ok everything, sampleDb) /\
    listing = map withoutEmail
                  (filter (fun b => ownOrPublic (actor bobSession) (note b))
                          everything).
Proof.
  destruct (@all_is_readable_part_of_adminAll bobSession carolSession sampleDb
              sampleDb_userIdsUnique)
    as (listing & everything & E1 & E2 & _ & _ & Horder).
  - exists carol. simpl. tauto.
  - exists listing, everything. split; [exact E1|]. split; [exact E2|].
    apply Horder. simpl. repeat constructor; simpl; intuition discriminate.
Defined.

(** ** What the readers show of an owner, and what they leave alone *)

Lemma withUser_public users n o :
  owner (withUser publicColumns users n) = Some o ->
  Owner.email o = None /\
  Owner.id o = Some (Note.userId n) /\
  exists u, In u users /\ User.id u = Note.userId n /\
            Owner.name o = Some (User.name u) /\
            Owner.role o = Some (User.role u) /\
            Owner.image o = Some (User.image u).
Proof.
  unfold withUser. cbn [owner].
  destruct (findFirst _ users) as [u|] eqn:F; [|discriminate].
  apply (findFirst_key_some User.id) in F as [Hin Hid].
  cbn [option_map]. intros H. inversion H; subst o; clear H.
  unfold selectColumns, publicColumns, pick.
  cbn [col_id col_name col_email col_role col_image
       Owner.email Owner.id Owner.name Owner.role Owner.image].
  split; [reflexivity|]. split; [now rewrite Hid|].
  exists u. now repeat split.
Qed.

(** X4: the owner that [all] and [byId] attach to a note carries the id,
    name, role and image of the user the note belongs to, and never an
    email. *)
Theorem all_and_byId_never_attach_email :
  forall ctx raw db,
    (forall r db', noteRouter.all ctx db = (Ok r, db') ->
       forall a o, In a r -> owner a = Some o ->
         Owner.email o = None /\
         Owner.id o = Some (Note.userId (note a)) /\
         exists u, In u (Db.user db) /\ User.id u = Note.userId (note a) /\
                   Owner.name o = Some (User.name u) /\
                   Owner.role o = Some (User.role u) /\
                   Owner.image o = Some (User.image u)) /\
    (forall a db', noteRouter.byId ctx raw db = (Ok a, db') ->
       forall o, owner a = Some o ->
         Owner.email o = None /\
         Owner.id o = Some (Note.userId (note a)) /\
         exists u, In u (Db.user db) /\ User.id u = Note.userId (note a) /\
                   Owner.name o = Some (User.name u) /\
                   Owner.role o = Some (User.role u) /\
                   Owner.image o = Some (User.image u)).
Proof.
  intros ctx raw db. split.
  - intros r db'. run. destruct (session ctx) as [s|]; [|discriminate].
    intros H. inversion H; subst; clear H.
    intros a o Ha Ho. apply in_map_iff in Ha as (n & <- & _).
    now apply withUser_public.
  - intros a db'. run. destruct (session ctx) as [s|]; [|discriminate].
    destruct (ByIdSchema raw) as [id|]; [|discriminate].
    destruct (uuid_in id); [|discriminate].
    destruct (findFirst _ (Db.Note db)) as [n|]; [|discriminate].
    intros H. inversion H; subst; clear H.
    intros o Ho. now apply withUser_public.
Qed.

(** Bob reads Alice's public post: her name comes with it, her email
    does not. *)
Lemma all_and_byId_never_attach_email_witness :
  Owner.email (Owner.mk (Some "u-alice") (Some "Alice") None (Some "user")
                        (Some None)) = None /\
  Owner.id (Owner.mk (Some "u-alice") (Some "Alice") None (Some "user")
                     (Some None)) = Some (Note.userId publicPost).
Proof.
  destruct (proj2 (all_and_byId_never_attach_email
                     (authenticated bobSession) (byIdInput uuid1) sampleDb)
                  (withUser publicColumns (Db.user sampleDb) publicPost) sampleDb
                  eq_refl
                  (Owner.mk (Some "u-alice") (Some "Alice") None (Some "user")
                            (Some None))
                  eq_refl) as (He & Hi & _).
  split; [exact He | exact Hi].
Defined.

(** X5: the four queries -- [all], [myNotes], [byId], [adminAll] -- hand
    back the database they were given, whoever calls them, whatever the
    input and whether they succeed or throw. *)
Theorem queries_write_nothing :
  forall ctx raw db,
    snd (noteRouter.all ctx db) = db /\
    snd (noteRouter.myNotes ctx db) = db /\
    snd (noteRouter.byId ctx raw db) = db /\
    snd (noteRouter.adminAll ctx db) = db.
Proof.
  intros ctx raw db. unfold noteRouter.myNotes. run.
  destruct (session ctx) as [s|]; [|now repeat split].
  repeat split.
  - destruct (ByIdSchema raw) as [id|]; [|reflexivity].
    destruct (uuid_in id); [|reflexivity].
    now destruct (findFirst _ (Db.Note db)).
  - destruct (findFirst _ (Db.user db)); [|reflexivity].
    now destruct (includes _ _).
Qed.

(** ** What a client can set on [create] *)

(** X6: a [create] that throws -- no session, input refused by the
    schema, or the row refused by the server for a text with U+0000 or a
    constraint of the table -- leaves the database as it was. *)
Theorem failed_create_writes_nothing :
  forall ctx raw env db code db',
    noteRouter.create ctx raw env db = (Throw code, db') -> db' = db.
Proof.
  intros ctx raw env db code db'. run.
  destruct (session ctx) as [s|]; [|congruence].
  destruct (CreateNoteSchema raw) as [i|]; [|congruence].
  unfold insertNote.
  destruct (hasNul _ || hasNul _); [congruence|].
  destruct (existsb _ (Db.Note db)); [congruence|].
  destruct (existsb _ (Db.user db)); congruence.
Qed.

(** Bob's note without a content is refused and nothing is stored. *)
Lemma failed_create_writes_nothing_witness :
  snd (noteRouter.create (authenticated bobSession)
         (JObj [("title", JStr "Mine")]) sampleEnv sampleDb) = sampleDb.
Proof.
  apply (@failed_create_writes_nothing
           (authenticated bobSession) (JObj [("title", JStr "Mine")])
           sampleEnv sampleDb BAD_REQUEST).
  reflexivity.
Defined.

(** X7: [create] reads three keys of the client's object and no other:
    erasing any other key -- [id], [userId], [createdAt], [updatedAt] or
    an unknown one -- changes neither the outcome nor the database. *)
Theorem create_reads_only_its_three_keys :
  forall ctx k o env db,
    k <> "title" -> k <> "content" -> k <> "isPublic" ->
    noteRouter.create ctx (JObj (without k o)) env db =
    noteRouter.create ctx (JObj o) env db.
Proof.
  intros ctx k o env db Ht Hc Hp. run.
  destruct (session ctx) as [s|]; [|reflexivity].
  unfold CreateNoteSchema. now rewrite !prop_without.
Qed.

(** A client-chosen [id] and [createdAt] do not reach the table. *)
Lemma create_reads_only_its_three_keys_witness :
  noteRouter.create (authenticated bobSession)
    (JObj (without "id"
             [("id", JStr uuid1); ("title", JStr "Mine");
              ("content", JStr "text"); ("createdAt", JNum 0%Z)]))
    sampleEnv sampleDb =
  noteRouter.create (authenticated bobSession)
    (JObj [("id", JStr uuid1); ("title", JStr "Mine");
           ("content", JStr "text"); ("createdAt", JNum 0%Z)])
    sampleEnv sampleDb.
Proof.
  apply (@create_reads_only_its_three_keys
           (authenticated bobSession) "id"); discriminate.
Defined.

(** ** What the schemas accept *)

(** X8: [CreateNoteSchema] accepts exactly the objects whose [title] is a
    string of 1 to 256 UTF-16 code units, whose [content] is a non-empty string
    and whose [isPublic] is a boolean or undefined; a value that is not
    an object, a missing or non-string title or content, and an
    [isPublic] that is null or of another type are all refused. *)
Theorem CreateNoteSchema_accepts_iff :
  forall raw i,
    CreateNoteSchema raw = Some i <->
    exists o,
      raw = JObj o /\
      prop "title" o = JStr (NewNote.title i) /\
      1 <= js_length (NewNote.title i) <= 256 /\
      prop "content" o = JStr (NewNote.content i) /\
      1 <= js_length (NewNote.content i) /\
      prop "isPublic" o = jsOfBool (NewNote.isPublic i).
Proof.
  intros raw i. split.
  - destruct raw as [| | | | |o]; try discriminate.
    unfold CreateNoteSchema, z_max, z_min, z_string, z_optional, z_boolean.
    destruct (prop "title" o) as [| | | |t|] eqn:T; try discriminate.
    destruct (Nat.leb_spec 1 (js_length t)) as [L1|]; [|discriminate].
    destruct (Nat.leb_spec (js_length t) 256) as [L2|]; [|discriminate].
    destruct (prop "content" o) as [| | | |c|] eqn:C; try discriminate.
    destruct (Nat.leb_spec 1 (js_length c)) as [L3|]; [|discriminate].
    destruct (prop "isPublic" o) as [| |b| | |] eqn:P; try discriminate;
      cbn [option_map]; intros H; inversion H; subst i; clear H;
      exists o; cbn [NewNote.title NewNote.content NewNote.isPublic jsOfBool];
      repeat split; assumption.
  - intros (o & -> & T & [L1 L2] & C & L3 & P).
    unfold CreateNoteSchema, z_max, z_min, z_string, z_optional, z_boolean.
    rewrite T, C, P.
    apply Nat.leb_le in L1, L2, L3. rewrite L1, L2, L3.
    destruct i as [t c [b|]]; reflexivity.
Qed.

(** X9: [CreatePostSchema] of the template accepts exactly the objects
    whose [title] and [content] are strings of at most 256 UTF-16 code
    units:
    unlike a note, a post may have an empty title or content, and its
    content is bounded. *)
Theorem CreatePostSchema_accepts_iff :
  forall raw p,
    CreatePostSchema raw = Some p <->
    exists o,
      raw = JObj o /\
      prop "title" o = JStr (NewPost.title p) /\
      js_length (NewPost.title p) <= 256 /\
      prop "content" o = JStr (NewPost.content p) /\
      js_length (NewPost.content p) <= 256.
Proof.
  intros raw p. split.
  - destruct raw as [| | | | |o]; try discriminate.
    unfold CreatePostSchema, z_max, z_string.
    destruct (prop "title" o) as [| | | |t|] eqn:T; try discriminate.
    destruct (Nat.leb_spec (js_length t) 256) as [L1|]; [|discriminate].
    destruct (prop "content" o) as [| | | |c|] eqn:C; try discriminate.
    destruct (Nat.leb_spec (js_length c) 256) as [L2|]; [|discriminate].
    intros H; inversion H; subst p; clear H.
    exists o. cbn [NewPost.title NewPost.content]. repeat split; assumption.
  - intros (o & -> & T & L1 & C & L2).
    unfold CreatePostSchema, z_max, z_string. rewrite T, C.
    apply Nat.leb_le in L1, L2. rewrite L1, L2.
    destruct p; reflexivity.
Qed.

Lemma UpdateInputSchema_invalid id d :
  ~ validData d -> UpdateInputSchema (updateInput id d) = None.
Proof.
  destruct d as [t c p]. unfold validData. cbn [NoteData.title NoteData.content].
  intros Hno.
  unfold UpdateInputSchema, updateInput, UpdateNoteSchema, prop,
    z_optional, z_max, z_min, z_string, z_boolean, jsOfString, jsOfBool.
  cbn [fold_left fst snd String.eqb Ascii.eqb Bool.eqb NoteData.title
       NoteData.content NoteData.isPublic].
  destruct t as [t|], c as [c|];
    repeat match goal with
           | |- context [Nat.leb ?a ?b] => destruct (Nat.leb_spec a b)
           end;
    cbn [option_map]; try reflexivity;
    try (destruct p; reflexivity);
    exfalso; apply Hno; repeat split; auto.
Qed.

Lemma title_refused (o : option string) :
  ~ match o with Some t => 1 <= js_length t <= 256 | None => True end <->
  exists t, o = Some t /\ (t = "" \/ 256 < js_length t).
Proof.
  destruct o as [t|]; split.
  - intros H. exists t. split; [reflexivity|].
    destruct (length_zero_iff_empty t) as [Hz _].
    assert (Hc : js_length t = 0 \/ 256 < js_length t) by lia.
    destruct Hc as [Hc|Hc]; [left; now apply Hz | now right].
  - intros (t' & E & Hbad). inversion E; subst t'; clear E.
    destruct Hbad as [->|Hlong]; [change (js_length "") with 0|]; lia.
  - intros H. exfalso. apply H. exact I.
  - intros (t' & E & _). discriminate E.
Qed.

Lemma content_refused (o : option string) :
  ~ match o with Some c => 1 <= js_length c | None => True end <->
  o = Some "".
Proof.
  destruct o as [c|]; split.
  - intros H. f_equal. apply length_zero_iff_empty. lia.
  - intros E. inversion E; subst c. change (js_length "") with 0. lia.
  - intros H. exfalso. apply H. exact I.
  - discriminate.
Qed.

Lemma validData_dec d : validData d \/ ~ validData d.
Proof.
  unfold validData. destruct (NoteData.title d), (NoteData.content d); lia.
Qed.

(** X10: [update] refuses the fields with BAD_REQUEST exactly when a
    supplied title is empty or longer than 256 UTF-16 code units or a
    supplied content is empty; fields that are left out are never a
    reason to refuse. *)
Theorem update_validation :
  forall s id d env db,
    fst (noteRouter.update (authenticated s) (updateInput id d) env db)
      = Throw BAD_REQUEST <->
    (exists t, NoteData.title d = Some t /\ (t = "" \/ 256 < js_length t)) \/
    NoteData.content d = Some "".
Proof.
  intros s id d env db.
  rewrite <- title_refused, <- content_refused.
  destruct (validData_dec d) as [Hv|Hno].
  - rewrite (update_typed s id env db Hv). split.
    + intros H. exfalso.
      destruct (uuid_in id); [|discriminate H].
      destruct (findFirst _ (Db.Note db)) as [n|]; [|discriminate H].
      destruct (String.eqb (Note.userId n) (actor s)); [|discriminate H].
      revert H. unfold updateNote.
      destruct (noValues d || dataHasNul d); discriminate.
    + destruct Hv as [Ht Hc]. tauto.
  - split.
    + intros _. unfold validData in Hno.
      destruct (validData_dec (NoteData.mk (NoteData.title d) None
                                           (NoteData.isPublic d))) as [[Ht _]|Ht].
      * right. intros Hc. apply Hno. cbn [NoteData.title] in Ht. tauto.
      * left. intros Ht'. apply Ht. unfold validData.
        cbn [NoteData.title NoteData.content]. tauto.
    + intros _. run. now rewrite (UpdateInputSchema_invalid id Hno).
Qed.

(** ** Writing, then reading *)

Section MoreKeyFacts.
Variable A : Type.
Variable key : A -> string.

Lemma unique_key_eq (l : list A) (x y : A) :
  NoDup (map key l) -> In x l -> In y l -> key x = key y -> x = y.
Proof.
  intros Hnd Hx Hy E.
  pose proof (findFirst_unique key l x Hnd Hx) as Fx.
  pose proof (findFirst_unique key l y Hnd Hy) as Fy.
  rewrite E in Fx. congruence.
Qed.

Lemma findFirst_unique_and (q : A -> bool) (l : list A) (x : A) :
  NoDup (map key l) -> In x l ->
  findFirst (fun y => String.eqb (key y) (key x) && q y) l =
  if q x then Some x else None.
Proof.
  unfold findFirst.
  induction l as [|y l IH]; simpl; intros Hnd Hin; [contradiction|].
  apply NoDup_cons_iff in Hnd as [Hfresh Hnd].
  destruct Hin as [->|Hin].
  - rewrite String.eqb_refl. cbn [andb].
    destruct (q x); [reflexivity|].
    apply (proj2 (findFirst_none_iff _ _)).
    intros z Hz. destruct (String.eqb (key z) (key x)) eqn:E; [|reflexivity].
    apply String.eqb_eq in E. exfalso. apply Hfresh. rewrite <- E.
    now apply in_map.
  - destruct (String.eqb (key y) (key x)) eqn:E.
    + apply String.eqb_eq in E. exfalso. apply Hfresh. rewrite E.
      now apply in_map.
    + now apply IH.
Qed.
End MoreKeyFacts.

Lemma findFirst_app_skip A (p : A -> bool) (l l' : list A) :
  (forall x, In x l -> p x = false) ->
  findFirst p (l ++ l') = findFirst p l'.
Proof.
  unfold findFirst. induction l as [|y l IH]; simpl; intros H; [reflexivity|].
  rewrite (H y (or_introl eq_refl)). apply IH. intros x Hx. apply H. now right.
Qed.

Lemma findFirst_map A (p : A -> bool) (f : A -> A) (l : list A) :
  findFirst p (map f l) = option_map f (findFirst (fun x => p (f x)) l).
Proof.
  unfold findFirst. induction l as [|y l IH]; simpl; [reflexivity|].
  destruct (p (f y)); [reflexivity | exact IH].
Qed.

Lemma findFirst_ext A (p q : A -> bool) (l : list A) :
  (forall x, p x = q x) -> findFirst p l = findFirst q l.
Proof.
  unfold findFirst. intros H. induction l as [|y l IH]; simpl; [reflexivity|].
  now rewrite H, IH.
Qed.

Lemma byId_gone s id uuid db :
  uuid_in id = Some uuid ->
  (forall n, In n (Db.Note db) -> Note.id n <> uuid) ->
  noteRouter.byId (authenticated s) (byIdInput id) db = (Throw NOT_FOUND, db).
Proof.
  intros Eid H. rewrite byId_typed, Eid.
  assert (F : findFirst (fun n => String.eqb (Note.id n) uuid
                                  && ownOrPublic (actor s) n) (Db.Note db) = None).
  { apply findFirst_none_iff. intros n Hn.
    apply (H n) in Hn. apply String.eqb_neq in Hn. now rewrite Hn. }
  now rewrite F.
Qed.

Lemma insertNote_inv env i uid db rows db' :
  insertNote env i uid db = (Ok rows, db') ->
  let row := Note.mk (gen_random_uuid env) (NewNote.title i) (NewNote.content i)
                     uid
                     (match NewNote.isPublic i with Some b => b | None => false end)
                     (now env) (Some (now env)) (gen_random_uuid_is_uuid env) in
  rows = [row] /\
  db' = Db.mk (Db.user db) (Db.Note db ++ [row]) /\
  (forall m, In m (Db.Note db) -> Note.id m <> Note.id row).
Proof.
  unfold insertNote. cbn [Note.id].
  destruct (hasNul _ || hasNul _); [discriminate|].
  destruct (existsb _ (Db.Note db)) eqn:E1; [discriminate|].
  destruct (existsb _ (Db.user db)); [|discriminate].
  intros H. inversion H; subst; clear H.
  split; [reflexivity|]. split; [reflexivity|].
  intros m Hm Eid.
  assert (F : existsb (fun n => String.eqb (Note.id n) (gen_random_uuid env))
                      (Db.Note db) = true).
  { apply existsb_exists. exists m. split; [exact Hm | now apply String.eqb_eq]. }
  congruence.
Qed.

Lemma create_inv s raw env db n db' :
  noteRouter.create (authenticated s) raw env db = (Ok [n], db') ->
  exists i,
    CreateNoteSchema raw = Some i /\
    db' = Db.mk (Db.user db) (Db.Note db ++ [n]) /\
    (forall m, In m (Db.Note db) -> Note.id m <> Note.id n) /\
    Note.userId n = actor s /\
    Note.isPublic n = match NewNote.isPublic i with Some b => b | None => false end.
Proof.
  run. destruct (CreateNoteSchema raw) as [i|]; [|discriminate].
  intros H. apply insertNote_inv in H as (Hrows & Hdb & Hfresh).
  inversion Hrows; subst n; clear Hrows.
  exists i. repeat split; assumption.
Qed.

(** X11: the note a successful [create] returns can be read back at
    once by its creator through [byId], whether public or not; any other
    actor can read it exactly when it is public, and it is private when
    the client left [isPublic] out. *)
Theorem created_note_is_readable_and_private_by_default :
  forall s raw env db n db',
    noteRouter.create (authenticated s) raw env db = (Ok [n], db') ->
    noteRouter.byId (authenticated s) (byIdInput (Note.id n)) db'
      = (Ok (withUser publicColumns (Db.user db') n), db') /\
    (forall s', actor s' <> actor s ->
       (succeeds (noteRouter.byId (authenticated s') (byIdInput (Note.id n)) db')
        <-> Note.isPublic n = true)) /\
    (forall o, raw = JObj o -> prop "isPublic" o = JUndefined ->
               Note.isPublic n = false).
Proof.
  intros s raw env db n db' H.
  apply create_inv in H as (i & Hparse & -> & Hfresh & Hown & Hpub).
  assert (Hskip : forall u,
             findFirst (fun m => String.eqb (Note.id m) (Note.id n)
                                 && ownOrPublic u m) (Db.Note db ++ [n])
             = if ownOrPublic u n then Some n else None).
  { intros u. rewrite findFirst_app_skip.
    - unfold findFirst. simpl. rewrite String.eqb_refl. reflexivity.
    - intros m Hm. apply Hfresh in Hm. apply String.eqb_neq in Hm.
      now rewrite Hm. }
  split; [|split].
  - rewrite byId_typed, (Note.id_is_uuid n). cbn [Db.Note Db.user].
    rewrite Hskip.
    assert (E : ownOrPublic (actor s) n = true)
      by (apply ownOrPublic_spec; now left).
    now rewrite E.
  - intros s' Hne. rewrite byId_typed, (Note.id_is_uuid n).
    cbn [Db.Note Db.user]. rewrite Hskip.
    destruct (ownOrPublic (actor s') n) eqn:E.
    + apply ownOrPublic_spec in E as [E|E]; [congruence|].
      split; [intros _; exact E | intros _; eexists; reflexivity].
    + split; [intros [a Ha]; discriminate Ha|].
      intros Hp. exfalso.
      assert (E' : ownOrPublic (actor s') n = true)
        by (apply ownOrPublic_spec; now right).
      congruence.
  - intros o -> Hundef. rewrite Hpub.
    unfold CreateNoteSchema in Hparse. rewrite Hundef in Hparse.
    destruct (z_max 256 (z_min 1 z_string) (prop "title" o)); [|discriminate].
    destruct (z_min 1 z_string (prop "content" o)); [|discriminate].
    cbn [z_optional] in Hparse. inversion Hparse; subst i. reflexivity.
Qed.

(** Bob's new note: he reads it back, Alice cannot. *)
Lemma created_note_is_readable_and_private_by_default_witness :
  noteRouter.byId (authenticated bobSession) (byIdInput uuid4)
    (Db.mk [alice; bob; carol]
       [publicPost; diary; todo;
        Note.mk uuid4 "Mine" "text" "u-bob" false 30%Z (Some 30%Z) eq_refl])
  = (Ok (withUser publicColumns [alice; bob; carol]
           (Note.mk uuid4 "Mine" "text" "u-bob" false 30%Z (Some 30%Z) eq_refl)),
     Db.mk [alice; bob; carol]
       [publicPost; diary; todo;
        Note.mk uuid4 "Mine" "text" "u-bob" false 30%Z (Some 30%Z) eq_refl]).
Proof.
  apply (proj1 (@created_note_is_readable_and_private_by_default
                  bobSession (createInput "Mine" "text" None) sampleEnv sampleDb
                  (Note.mk uuid4 "Mine" "text" "u-bob" false 30%Z (Some 30%Z) eq_refl)
                  (Db.mk [alice; bob; carol]
                     [publicPost; diary; todo;
                      Note.mk uuid4 "Mine" "text" "u-bob" false 30%Z (Some 30%Z) eq_refl])
                  eq_refl)).
Defined.

(** X12: deleting the note a [create] has just returned gives back, as a
    whole, the database the [create] started from. *)
Theorem delete_undoes_create :
  forall s raw env db n db',
    noteRouter.create (authenticated s) raw env db = (Ok [n], db') ->
    noteRouter.delete (authenticated s) (JStr (Note.id n)) db' = (Ok tt, db).
Proof.
  intros s raw env db n db' H.
  apply create_inv in H as (i & _ & -> & Hfresh & Hown & _).
  rewrite delete_typed, (Note.id_is_uuid n). cbn [Db.Note Db.user].
  assert (Hkeep : forall m, In m (Db.Note db) ->
                            String.eqb (Note.id m) (Note.id n) = false).
  { intros m Hm. apply String.eqb_neq. now apply Hfresh. }
  rewrite (findFirst_app_skip _ _ [n] Hkeep).
  unfold findFirst. simpl. rewrite String.eqb_refl, Hown, String.eqb_refl.
  unfold deleteNote. cbn [Db.Note Db.user].
  rewrite filter_app. simpl. rewrite String.eqb_refl. simpl.
  rewrite app_nil_r.
  assert (F : filter (fun m => negb (String.eqb (Note.id m) (Note.id n)))
                     (Db.Note db) = Db.Note db).
  { clear - Hkeep. induction (Db.Note db) as [|m l IH]; simpl; [reflexivity|].
    rewrite (Hkeep m (or_introl eq_refl)). simpl. f_equal.
    apply IH. intros x Hx. apply Hkeep. now right. }
  rewrite F. now destruct db.
Qed.

Lemma delete_undoes_create_witness :
  noteRouter.delete (authenticated bobSession) (JStr uuid4)
    (Db.mk [alice; bob; carol]
       [publicPost; diary; todo;
        Note.mk uuid4 "Mine" "text" "u-bob" false 30%Z (Some 30%Z) eq_refl])
  = (Ok tt, sampleDb).
Proof.
  apply (@delete_undoes_create
           bobSession (createInput "Mine" "text" None) sampleEnv sampleDb
           (Note.mk uuid4 "Mine" "text" "u-bob" false 30%Z (Some 30%Z) eq_refl)).
  reflexivity.
Defined.

(** ** What an owner can do *)

(** X13: the owner's [delete] of a stored note succeeds; it takes that
    note out of the table and no other, leaves the users alone, and from
    then on [byId] and a second [delete] of the id throw NOT_FOUND for
    every actor. *)
Theorem owner_delete_removes_the_note :
  forall s db n,
    noteIdsUnique db ->
    In n (Db.Note db) ->
    Note.userId n = actor s ->
    exists db',
      noteRouter.delete (authenticated s) (JStr (Note.id n)) db = (Ok tt, db') /\
      Db.user db' = Db.user db /\
      (forall m, In m (Db.Note db') <-> In m (Db.Note db) /\ m <> n) /\
      (forall s', noteRouter.byId (authenticated s') (byIdInput (Note.id n)) db'
                  = (Throw NOT_FOUND, db')) /\
      (forall s', noteRouter.delete (authenticated s') (JStr (Note.id n)) db'
                  = (Throw NOT_FOUND, db')).
Proof.
  intros s db n Hu Hin Hown.
  rewrite delete_typed, (Note.id_is_uuid n),
    (findFirst_unique Note.id _ _ Hu Hin), Hown, String.eqb_refl.
  unfold deleteNote. eexists. split; [reflexivity|].
  cbn [Db.user Db.Note].
  assert (Hleft : forall m,
             In m (filter (fun m => negb (String.eqb (Note.id m) (Note.id n)))
                          (Db.Note db))
             <-> In m (Db.Note db) /\ m <> n).
  { intros m. rewrite filter_In, negb_true_iff, String.eqb_neq.
    split; intros [Hm Hne]; (split; [exact Hm|]).
    - intros ->. now apply Hne.
    - intros E. apply Hne. exact (@unique_key_eq _ Note.id _ _ _ Hu Hm Hin E). }
  assert (Hgone : forall m,
             In m (filter (fun m => negb (String.eqb (Note.id m) (Note.id n)))
                          (Db.Note db))
             -> Note.id m <> Note.id n).
  { intros m Hm. apply filter_In in Hm as [_ Hm].
    now apply negb_true_iff, String.eqb_neq in Hm. }
  split; [reflexivity|]. split; [exact Hleft|]. split.
  - intros s'. apply (@byId_gone s' _ _ _ (Note.id_is_uuid n)). exact Hgone.
  - intros s'. rewrite delete_typed, (Note.id_is_uuid n). cbn [Db.Note].
    now rewrite (proj2 (findFirst_key_none Note.id _ _) Hgone).
Qed.

(** Alice deletes her diary. *)
Lemma owner_delete_removes_the_note_witness :
  exists db',
    noteRouter.delete (authenticated aliceSession) (JStr (Note.id diary)) sampleDb
      = (Ok tt, db') /\
    Db.user db' = Db.user sampleDb /\
    (forall m, In m (Db.Note db') <-> In m (Db.Note sampleDb) /\ m <> diary) /\
    (forall s', noteRouter.byId (authenticated s') (byIdInput (Note.id diary)) db'
                = (Throw NOT_FOUND, db')) /\
    (forall s', noteRouter.delete (authenticated s') (JStr (Note.id diary)) db'
                = (Throw NOT_FOUND, db')).
Proof.
  apply (@owner_delete_removes_the_note aliceSession sampleDb diary).
  - unfold noteIdsUnique. simpl.
    repeat constructor; simpl; intuition discriminate.
  - simpl. tauto.
  - reflexivity.
Defined.

Lemma updated_table_lookup (q : Note.t -> bool) d env (l : list Note.t) n :
  NoDup (map Note.id l) -> In n l ->
  findFirst (fun m => String.eqb (Note.id m) (Note.id n) && q m)
    (map (fun m => if String.eqb (Note.id m) (Note.id n)
                   then set_ d env m else m) l)
  = if q (set_ d env n) then Some (set_ d env n) else None.
Proof.
  intros Hu Hin. rewrite findFirst_map.
  rewrite (findFirst_ext _
             (fun m => String.eqb (Note.id m) (Note.id n) && q (set_ d env m))).
  - rewrite (@findFirst_unique_and _ Note.id _ _ _ Hu Hin).
    destruct (q (set_ d env n)); cbn [option_map];
      [now rewrite String.eqb_refl | reflexivity].
  - intros m. destruct (String.eqb (Note.id m) (Note.id n)) eqn:E.
    + cbn [set_ Note.id]. now rewrite E.
    + now rewrite E.
Qed.

(** X14: the owner's [update] of a stored note succeeds when the fields
    pass the schema, at least one of them is supplied and no supplied
    text holds U+0000. It returns the one updated row: same [id], owner
    and [createdAt], each field as supplied or as before; the row is in
    the table afterwards, in place of the old one, and [byId] gives it
    back to the owner. With no field supplied, the same call throws
    INTERNAL_SERVER_ERROR and changes nothing. *)
Theorem owner_update_returns_the_updated_note :
  forall s db n d env,
    noteIdsUnique db ->
    In n (Db.Note db) ->
    Note.userId n = actor s ->
    validData d ->
    (noValues d = true ->
     noteRouter.update (authenticated s) (updateInput (Note.id n) d) env db
       = (Throw INTERNAL_SERVER_ERROR, db)) /\
    (noValues d = false ->
     dataHasNul d = false ->
    exists n' db',
      noteRouter.update (authenticated s) (updateInput (Note.id n) d) env db
        = (Ok [n'], db') /\
      updatedRow (Note.id n) d env n n' /\
      In n' (Db.Note db') /\
      length (Db.Note db') = length (Db.Note db) /\
      noteRouter.byId (authenticated s) (byIdInput (Note.id n)) db'
        = (Ok (withUser publicColumns (Db.user db') n'), db')).
Proof.
  intros s db n d env Hu Hin Hown Hv.
  rewrite (update_typed s (Note.id n) env db Hv), (Note.id_is_uuid n),
    (findFirst_unique Note.id _ _ Hu Hin), Hown, String.eqb_refl.
  unfold updateNote. split; [intros ->; reflexivity|].
  intros -> ->. cbn [orb]. exists (set_ d env n). eexists.
  assert (Hone : filter (fun m => String.eqb (Note.id m) (Note.id n)) (Db.Note db)
                 = [n]).
  { clear - Hu Hin. unfold noteIdsUnique in Hu.
    induction (Db.Note db) as [|m l IH]; simpl in *; [contradiction|].
    apply NoDup_cons_iff in Hu as [Hfresh Hu].
    assert (Hnone : forall l', ~ In (Note.id n) (map Note.id l') ->
               filter (fun m => String.eqb (Note.id m) (Note.id n)) l' = []).
    { intros l' Hno. induction l' as [|x l' IHl']; simpl; [reflexivity|].
      destruct (String.eqb (Note.id x) (Note.id n)) eqn:E.
      - apply String.eqb_eq in E. exfalso. apply Hno. left. exact E.
      - apply IHl'. intros Hx. apply Hno. now right. }
    destruct Hin as [->|Hin].
    - rewrite String.eqb_refl. f_equal. now apply Hnone.
    - destruct (String.eqb (Note.id m) (Note.id n)) eqn:E.
      + apply String.eqb_eq in E. exfalso. apply Hfresh. rewrite E.
        now apply in_map.
      + now apply IH. }
  rewrite Hone. split; [reflexivity|]. cbn [Db.Note Db.user].
  split; [now apply set_updatedRow|]. split; [|split].
  - apply in_map_iff. exists n. now rewrite String.eqb_refl.
  - apply length_map.
  - rewrite byId_typed, (Note.id_is_uuid n). cbn [Db.Note Db.user].
    rewrite (@updated_table_lookup _ d env _ _ Hu Hin).
    assert (E : ownOrPublic (actor s) (set_ d env n) = true).
    { apply ownOrPublic_spec. left. exact Hown. }
    now rewrite E.
Qed.

(** Alice retitles her public post. *)
Lemma owner_update_returns_the_updated_note_witness :
  exists n' db',
    noteRouter.update (authenticated aliceSession)
      (updateInput (Note.id publicPost) newTitle) sampleEnv sampleDb
      = (Ok [n'], db') /\
    updatedRow (Note.id publicPost) newTitle sampleEnv publicPost n' /\
    In n' (Db.Note db') /\
    length (Db.Note db') = length (Db.Note sampleDb) /\
    noteRouter.byId (authenticated aliceSession) (byIdInput (Note.id publicPost)) db'
      = (Ok (withUser publicColumns (Db.user db') n'), db').
Proof.
  apply (@owner_update_returns_the_updated_note
           aliceSession sampleDb publicPost newTitle sampleEnv).
  - unfold noteIdsUnique. simpl.
    repeat constructor; simpl; intuition discriminate.
  - simpl. tauto.
  - reflexivity.
  - unfold validData, newTitle. cbn [NoteData.title NoteData.content].
    eval_js_length. lia.
  - reflexivity.
  - reflexivity.
Defined.

(** X15: after a successful [update] of a stored note, an actor other
    than its owner can read it through [byId] exactly when [isPublic] is
    true after the update -- the supplied value, or the old one if none
    was supplied: making a note private hides it at once. *)
Theorem update_of_isPublic_decides_who_reads :
  forall s db n d env rows db',
    noteIdsUnique db ->
    In n (Db.Note db) ->
    noteRouter.update (authenticated s) (updateInput (Note.id n) d) env db
      = (Ok rows, db') ->
    forall s', actor s' <> Note.userId n ->
      (succeeds (noteRouter.byId (authenticated s') (byIdInput (Note.id n)) db')
       <-> isPublicAfter d n = true).
Proof.
  intros s db n d env rows db' Hu Hin Hupd s' Hne.
  destruct (validData_dec d) as [Hv|Hno].
  2: { exfalso. revert Hupd. run.
       now rewrite (UpdateInputSchema_invalid (Note.id n) Hno). }
  rewrite (update_typed s (Note.id n) env db Hv), (Note.id_is_uuid n),
    (findFirst_unique Note.id _ _ Hu Hin) in Hupd.
  destruct (String.eqb (Note.userId n) (actor s)); [|discriminate Hupd].
  unfold updateNote in Hupd.
  destruct (noValues d || dataHasNul d); [discriminate Hupd|].
  inversion Hupd; subst; clear Hupd.
  rewrite byId_typed, (Note.id_is_uuid n). cbn [Db.Note Db.user].
  rewrite (@updated_table_lookup _ d env _ _ Hu Hin).
  assert (E : ownOrPublic (actor s') (set_ d env n) = isPublicAfter d n).
  { unfold ownOrPublic, isPublicAfter. cbn [set_ Note.userId Note.isPublic].
    assert (F : String.eqb (Note.userId n) (actor s') = false)
      by (apply String.eqb_neq; congruence).
    rewrite F. cbn [orb].
    now destruct (match NoteData.isPublic d with
                  | Some b => b | None => Note.isPublic n end). }
  rewrite E. destruct (isPublicAfter d n).
  - split; [reflexivity | intros _; eexists; reflexivity].
  - split; [intros [a Ha]; discriminate Ha | discriminate].
Qed.

(** Alice makes her public post private and Bob can no longer read it. *)
Lemma update_of_isPublic_decides_who_reads_witness :
  succeeds (noteRouter.byId (authenticated bobSession) (byIdInput uuid1)
              (Db.mk [alice; bob; carol]
                 [Note.mk uuid1 "Public Post" "hi" "u-alice" false 10%Z (Some 30%Z) eq_refl;
                  diary; todo]))
  <-> isPublicAfter (NoteData.mk None None (Some false)) publicPost = true.
Proof.
  apply (@update_of_isPublic_decides_who_reads
           aliceSession sampleDb publicPost (NoteData.mk None None (Some false))
           sampleEnv
           [Note.mk uuid1 "Public Post" "hi" "u-alice" false 10%Z (Some 30%Z) eq_refl]
           (Db.mk [alice; bob; carol]
              [Note.mk uuid1 "Public Post" "hi" "u-alice" false 10%Z (Some 30%Z) eq_refl;
               diary; todo])).
  - unfold noteIdsUnique. simpl.
    repeat constructor; simpl; intuition discriminate.
  - simpl. tauto.
  - reflexivity.
  - discriminate.
Defined.

(** ** After an admin's deletion *)

(** X16: once [adminDelete] has succeeded for an id, no row of the table
    has that id: [byId] throws NOT_FOUND for every actor, and no listing
    of [all] shows a note with the id. The same holds of the uuid that the
    id spells, however it is spelled. *)
Theorem adminDelete_makes_note_unreadable :
  forall ctx raw db db',
    noteRouter.adminDelete ctx raw db = (Ok tt, db') ->
    exists id,
      raw = JStr id /\
      (forall m, In m (Db.Note db') -> Note.id m <> id) /\
      (forall s', noteRouter.byId (authenticated s') (byIdInput id) db'
                  = (Throw NOT_FOUND, db')) /\
      (forall s' r a, noteRouter.all (authenticated s') db' = (Ok r, db') ->
                      In a r -> Note.id (note a) <> id) /\
      exists uuid,
        uuid_in id = Some uuid /\
        (forall m, In m (Db.Note db') -> Note.id m <> uuid) /\
        (forall s' id', uuid_in id' = Some uuid ->
           noteRouter.byId (authenticated s') (byIdInput id') db'
           = (Throw NOT_FOUND, db')) /\
        (forall s' r a, noteRouter.all (authenticated s') db' = (Ok r, db') ->
                        In a r -> Note.id (note a) <> uuid).
Proof.
  intros ctx raw db db'. run.
  destruct (session ctx) as [s|]; [|discriminate].
  destruct (findFirst _ (Db.user db)) as [u|]; [|discriminate].
  destruct (includes _ _); [|discriminate].
  destruct raw as [| | | |id|]; try discriminate. cbn [z_string].
  destruct (uuid_in id) as [uuid|] eqn:Eid; [|discriminate].
  destruct (findFirst _ (Db.Note db)) as [n|]; [|discriminate].
  unfold deleteNote. intros H. inversion H; subst db'; clear H.
  exists id. split; [reflexivity|].
  assert (Hgone : forall m,
             In m (filter (fun m => negb (String.eqb (Note.id m) uuid))
                          (Db.Note db))
             -> Note.id m <> uuid).
  { intros m Hm. apply filter_In in Hm as [_ Hm].
    now apply negb_true_iff, String.eqb_neq in Hm. }
  assert (Hspelt : forall m,
             In m (filter (fun m => negb (String.eqb (Note.id m) uuid))
                          (Db.Note db))
             -> Note.id m <> id).
  { intros m Hm E. apply (Hgone m Hm).
    pose proof (Note.id_is_uuid m) as Hm'. rewrite E in Hm'. congruence. }
  assert (Hall : forall s' r a,
             noteRouter.all (authenticated s')
               (Db.mk (Db.user db)
                  (filter (fun m => negb (String.eqb (Note.id m) uuid))
                          (Db.Note db)))
             = (Ok r, Db.mk (Db.user db)
                        (filter (fun m => negb (String.eqb (Note.id m) uuid))
                                (Db.Note db))) ->
             In a r ->
             In (note a)
                (filter (fun m => negb (String.eqb (Note.id m) uuid))
                        (Db.Note db))).
  { intros s' r a Hr Ha. inversion Hr; subst r; clear Hr.
    apply in_map_iff in Ha as (m & <- & Hm). cbn [note withUser].
    unfold findMany in Hm.
    apply (Permutation_in _ (desc_perm Note.createdAt _)) in Hm.
    now apply filter_In in Hm as [Hm _]. }
  split; [exact Hspelt|]. split; [|split].
  - intros s'. now apply (@byId_gone s' id uuid).
  - intros s' r a Hr Ha. apply Hspelt. exact (Hall s' r a Hr Ha).
  - exists uuid. split; [exact Eid|]. split; [exact Hgone|]. split.
    + intros s' id' Eid'. now apply (@byId_gone s' id' uuid).
    + intros s' r a Hr Ha. apply Hgone. exact (Hall s' r a Hr Ha).
Qed.

(** Carol deletes Alice's diary; Alice herself no longer finds it. *)
Lemma adminDelete_makes_note_unreadable_witness :
  noteRouter.byId (authenticated aliceSession) (byIdInput uuid2)
    (Db.mk [alice; bob; carol] [publicPost; todo])
  = (Throw NOT_FOUND, Db.mk [alice; bob; carol] [publicPost; todo]).
Proof.
  destruct (@adminDelete_makes_note_unreadable
              (authenticated carolSession) (JStr uuid2) sampleDb
              (Db.mk [alice; bob; carol] [publicPost; todo]) eq_refl)
    as (id & Hid & _ & Hby & _).
  inversion Hid; subst id. apply Hby.
Defined.

(** ** The role middleware in general *)

(** X17: for any list of allowed roles, [requireRole] lets the call
    through exactly when the role of the actor's record in the user
    table is in the list, and hands that role -- not the session's -- to
    the resolver; with no record of the actor it throws FORBIDDEN. *)
Theorem requireRole_decides_on_directory_role :
  forall (A : Type) (allowedRoles : list string) (s : Session.t)
         (next : Session.t -> string -> Proc A) (db : Db.t),
    userIdsUnique db ->
    (forall u, In u (Db.user db) -> User.id u = actor s ->
       (In (User.role u) allowedRoles ->
        requireRole allowedRoles (authenticated s) next db
          = next s (User.role u) db) /\
       (~ In (User.role u) allowedRoles ->
        requireRole allowedRoles (authenticated s) next db
          = (Throw FORBIDDEN, db))) /\
    ((forall u, In u (Db.user db) -> User.id u <> actor s) ->
     requireRole allowedRoles (authenticated s) next db = (Throw FORBIDDEN, db)).
Proof.
  intros A allowedRoles s next db Hu. split.
  - intros u Hin Hid. run.
    assert (F : findFirst (fun u0 => String.eqb (User.id u0)
                                                (User.id (Session.user s)))
                          (Db.user db) = Some u).
    { unfold actor in Hid. rewrite <- Hid.
      now apply (findFirst_unique User.id). }
    rewrite F.
    assert (Hinc : includes allowedRoles (User.role u) = true
                   <-> In (User.role u) allowedRoles).
    { unfold includes. rewrite existsb_exists. split.
      - intros (r & Hr & E). apply String.eqb_eq in E. now subst r.
      - intros Hr. exists (User.role u). split; [exact Hr|].
        apply String.eqb_refl. }
    destruct (includes allowedRoles (User.role u)).
    + split; [reflexivity|]. intros Hno. exfalso. apply Hno.
      now apply Hinc.
    + split; [|reflexivity]. intros Hyes. apply Hinc in Hyes. discriminate.
  - intros Hnone. run. unfold actor in Hnone.
    now rewrite (proj2 (findFirst_key_none User.id _ _) Hnone).
Qed.

(** A procedure open to admins and moderators: Carol passes as admin,
    which is what the resolver is told. *)
Lemma requireRole_decides_on_directory_role_witness :
  requireRole ["admin"; "moderator"] (authenticated carolSession)
              (fun _ userRole => ret userRole) sampleDb
  = (Ok "admin", sampleDb).
Proof.
  apply (proj1 (proj1 (@requireRole_decides_on_directory_role
                         string ["admin"; "moderator"] carolSession
                         (fun _ userRole => ret userRole) sampleDb
                         sampleDb_userIdsUnique)
                      carol (or_intror (or_intror (or_introl eq_refl)))
                      eq_refl)).
  simpl. tauto.
Defined.

(** Bob's new note keeps the sample database consistent. *)
Lemma mutations_keep_constraints_witness :
  consistent (snd (noteRouter.create (authenticated bobSession)
                     (createInput "Mine" "text" None) sampleEnv sampleDb)).
Proof.
  exact (proj1 (@mutations_keep_constraints
                  (authenticated bobSession) (createInput "Mine" "text" None)
                  sampleEnv sampleDb sampleDb_consistent)).
Defined.

(** ** Owners, promotions and deleted users *)

Lemma withUser_owner_exists c users n :
  (exists u, In u users /\ User.id u = Note.userId n) ->
  exists o, owner (withUser c users n) = Some o.
Proof.
  intros (u & Hin & Hid). unfold withUser. cbn [owner].
  destruct (findFirst _ users) as [v|] eqn:F.
  - eexists. reflexivity.
  - exfalso. exact (proj1 (findFirst_key_none User.id _ _) F u Hin Hid).
Qed.

(** X19: when every note belongs to a user of the user table, as the
    reference of the schema demands, every note that [all], [byId] or
    [adminAll] returns comes with its owner attached. *)
Theorem listed_notes_come_with_their_owner :
  forall ctx raw db,
    ownersExist db ->
    (forall r db', noteRouter.all ctx db = (Ok r, db') ->
                   forall a, In a r -> exists o, owner a = Some o) /\
    (forall a db', noteRouter.byId ctx raw db = (Ok a, db') ->
                   exists o, owner a = Some o) /\
    (forall r db', noteRouter.adminAll ctx db = (Ok r, db') ->
                   forall a, In a r -> exists o, owner a = Some o).
Proof.
  intros ctx raw db Hfk.
  assert (Hsorted : forall p n,
             In n (findMany p (desc Note.createdAt) (Db.Note db)) ->
             In n (Db.Note db)).
  { intros p n Hn. unfold findMany in Hn.
    apply (Permutation_in _ (desc_perm Note.createdAt _)) in Hn.
    now apply filter_In in Hn as [Hn _]. }
  split; [|split].
  - intros r db'. run. destruct (session ctx) as [s|]; [|discriminate].
    intros H. inversion H; subst; clear H.
    intros a Ha. apply in_map_iff in Ha as (n & <- & Hn).
    apply withUser_owner_exists, Hfk. eapply Hsorted; exact Hn.
  - intros a db'. run. destruct (session ctx) as [s|]; [|discriminate].
    destruct (ByIdSchema raw) as [id|]; [|discriminate].
    destruct (uuid_in id); [|discriminate].
    destruct (findFirst _ (Db.Note db)) as [n|] eqn:F; [|discriminate].
    intros H. inversion H; subst; clear H.
    apply withUser_owner_exists, Hfk.
    now apply find_some in F as [Hin _].
  - intros r db'. run. destruct (session ctx) as [s|]; [|discriminate].
    destruct (findFirst _ (Db.user db)) as [u|]; [|discriminate].
    destruct (includes _ _); [|discriminate].
    intros H. inversion H; subst; clear H.
    intros a Ha. apply in_map_iff in Ha as (n & <- & Hn).
    apply withUser_owner_exists, Hfk. eapply Hsorted; exact Hn.
Qed.

Lemma listed_notes_come_with_their_owner_witness :
  exists o, owner (withUser publicColumns (Db.user sampleDb) publicPost) = Some o.
Proof.
  apply (proj1 (proj2 (@listed_notes_come_with_their_owner
                         (authenticated bobSession) (byIdInput uuid1) sampleDb
                         (proj2 (proj2 sampleDb_consistent))))
               (withUser publicColumns (Db.user sampleDb) publicPost) sampleDb).
  reflexivity.
Defined.

Lemma sqlSetRole_userIdsUnique e r db :
  userIdsUnique db -> userIdsUnique (sqlSetRole e r db).
Proof.
  unfold userIdsUnique, sqlSetRole. cbn [Db.user]. intros H.
  rewrite map_map.
  rewrite (map_ext _ User.id); [exact H|].
  intros u. now destruct (String.eqb (User.email u) e).
Qed.

(** X20: a promotion in the user table takes effect on the very next
    call: after [UPDATE "user" SET role = 'admin'] for the actor's email,
    [adminAll] succeeds for the actor's unchanged session, whatever role
    that session still carries, and lists every note. *)
Theorem promotion_takes_effect_on_next_call :
  forall s db u,
    userIdsUnique db ->
    In u (Db.user db) ->
    User.id u = actor s ->
    exists r,
      noteRouter.adminAll (authenticated s) (sqlSetRole (User.email u) "admin" db)
        = (Ok r, sqlSetRole (User.email u) "admin" db) /\
      Permutation (map note r) (Db.Note db).
Proof.
  intros s db u Hu Hin Hid.
  assert (Hr : hasRole (sqlSetRole (User.email u) "admin" db) (actor s) "admin").
  { exists (User.mk (User.id u) (User.name u) (User.email u) "admin"
                    (User.image u)).
    split; [|split; [exact Hid | reflexivity]].
    unfold sqlSetRole. cbn [Db.user]. apply in_map_iff. exists u.
    now rewrite String.eqb_refl. }
  unfold noteRouter.adminAll.
  rewrite (@requireRole_granted _ s _ _
             (sqlSetRole_userIdsUnique (User.email u) "admin" Hu) Hr).
  eexists. split; [reflexivity|].
  rewrite note_withUser. unfold findMany. rewrite filter_all.
  apply desc_perm.
Qed.

(** Bob is promoted; his session, read while he was a plain user, now
    opens the admin listing. *)
Lemma promotion_takes_effect_on_next_call_witness :
  User.role (Session.user bobSession) = "user" /\
  exists r,
    noteRouter.adminAll (authenticated bobSession)
                        (sqlSetRole "bob@example.com" "admin" sampleDb)
      = (Ok r, sqlSetRole "bob@example.com" "admin" sampleDb) /\
    Permutation (map note r) (Db.Note sampleDb).
Proof.
  split; [reflexivity|].
  apply (@promotion_takes_effect_on_next_call bobSession sampleDb bob).
  - exact sampleDb_userIdsUnique.
  - simpl. tauto.
  - reflexivity.
Defined.

(** X21: deleting a user takes the user's notes along and nothing else,
    and keeps the constraints of the schema; the deleted user's session
    is then refused by [adminAll] and finds no note in [myNotes]. *)
Theorem deleting_a_user_cascades_to_their_notes :
  forall uid db,
    consistent db ->
    consistent (sqlDeleteUser uid db) /\
    (forall n, In n (Db.Note (sqlDeleteUser uid db)) <->
               In n (Db.Note db) /\ Note.userId n <> uid) /\
    (forall s, actor s = uid ->
       noteRouter.adminAll (authenticated s) (sqlDeleteUser uid db)
         = (Throw FORBIDDEN, sqlDeleteUser uid db) /\
       noteRouter.myNotes (authenticated s) (sqlDeleteUser uid db)
         = (Ok [], sqlDeleteUser uid db)).
Proof.
  intros uid db (Hn & Hu & Hfk).
  assert (Hnotes : forall n, In n (Db.Note (sqlDeleteUser uid db)) <->
                             In n (Db.Note db) /\ Note.userId n <> uid).
  { intros n. unfold sqlDeleteUser. cbn [Db.Note].
    now rewrite filter_In, negb_true_iff, String.eqb_neq. }
  assert (Husers : forall u, In u (Db.user (sqlDeleteUser uid db)) <->
                             In u (Db.user db) /\ User.id u <> uid).
  { intros u. unfold sqlDeleteUser. cbn [Db.user].
    now rewrite filter_In, negb_true_iff, String.eqb_neq. }
  split; [|split; [exact Hnotes|]].
  - split; [|split].
    + unfold noteIdsUnique, sqlDeleteUser. cbn [Db.Note].
      now apply filter_keeps_keys_unique.
    + unfold userIdsUnique, sqlDeleteUser. cbn [Db.user].
      now apply filter_keeps_keys_unique.
    + intros n Hin. apply Hnotes in Hin as [Hin Hne].
      destruct (Hfk n Hin) as (u & Hu' & Hid).
      exists u. split; [|exact Hid]. apply Husers. split; [exact Hu'|].
      congruence.
  - intros s Hs. split.
    + unfold noteRouter.adminAll. apply requireRole_denied.
      intros (u & Hin & Hid & _). apply Husers in Hin as [_ Hne]. congruence.
    + unfold noteRouter.myNotes. run. unfold findMany.
      assert (F : filter (fun n => String.eqb (Note.userId n)
                                              (User.id (Session.user s)))
                         (Db.Note (sqlDeleteUser uid db)) = []).
      { unfold sqlDeleteUser. cbn [Db.Note]. unfold actor in Hs. rewrite Hs.
        clear. induction (Db.Note db) as [|n l IH]; simpl; [reflexivity|].
        destruct (String.eqb (Note.userId n) uid) eqn:E; simpl;
          [exact IH | now rewrite E]. }
      now rewrite F.
Qed.

(** Alice is deleted: Bob's todo is all that is left. *)
Lemma deleting_a_user_cascades_to_their_notes_witness :
  consistent (sqlDeleteUser "u-alice" sampleDb) /\
  Db.Note (sqlDeleteUser "u-alice" sampleDb) = [todo].
Proof.
  split; [|reflexivity].
  exact (proj1 (deleting_a_user_cascades_to_their_notes "u-alice"
                  sampleDb_consistent)).
Defined.
